(** * Emotion-powered chatbot: decision logic of the React components

    A shallow embedding of the non-rendering logic of
    [FaceDetection] (dominant-expression selection and the confidence
    gate), [App] (the shared current emotion) and [ChatInterface] (chat
    dispatch and the dictation controller), followed by the properties
    proved about them.

    Conventions.
    - A JavaScript number that is a finite double denotes a rational; the
      comparison [>] on finite doubles is the order of [Q].  Scores and
      parsed JSON numbers are therefore values of [Q] (NaN and the
      infinities are not represented).
    - A JavaScript string is a [string]; each character stands for the
      code unit with the same number (U+0000 to U+00FF).
    - A React state cell is a record field; a [setX] call is a record
      update; a value captured by a closure is an explicit argument. *)

From Stdlib Require Import List String Ascii Bool ZArith NArith QArith Lia.
From Stdlib Require Import DecimalString.
Import ListNotations.

Set Warnings "-register-all".

Local Open Scope list_scope.
Local Open Scope string_scope.

(** ** JavaScript helpers *)

Module Js.

(** [a > b] on numbers. *)
Definition gt (a b : Q) : bool := negb (Qle_bool a b).

(** [Array.prototype.reduce] called without an initial value: the first
    element seeds the accumulator, and an empty array raises a
    [TypeError] (here [None]). *)
Definition reduce {A : Type} (f : A -> A -> A) (xs : list A) : option A :=
  match xs with
  | [] => None
  | x :: rest => Some (fold_left f rest x)
  end.

(** Truthiness of a string. *)
Definition truthy_string (s : string) : bool :=
  match s with
  | EmptyString => false
  | String _ _ => true
  end.

(** [a || b] for [a : string | null] and a string [b]. *)
Definition or_else (o : option string) (d : string) : string :=
  match o with
  | Some s => if truthy_string s then s else d
  | None => d
  end.

(** [Object.is] on [string | null], the comparison React applies to an
    effect's dependencies and to a new state value. *)
Definition same (a b : option string) : bool :=
  match a, b with
  | None, None => true
  | Some x, Some y => String.eqb x y
  | _, _ => false
  end.

(** White space and line terminators removed by [String.prototype.trim],
    among the code units below 256: TAB, LF, VT, FF, CR, SP, NBSP. *)
Definition is_white_space (c : ascii) : bool :=
  let n := nat_of_ascii c in
  Nat.eqb n 9 || Nat.eqb n 10 || Nat.eqb n 11 || Nat.eqb n 12
  || Nat.eqb n 13 || Nat.eqb n 32 || Nat.eqb n 160.

Fixpoint trim_start (s : string) : string :=
  match s with
  | EmptyString => EmptyString
  | String c rest => if is_white_space c then trim_start rest else s
  end.

(** Drops trailing white space: a character is kept when it is not white
    space or when something is kept after it. *)
Fixpoint trim_end (s : string) : string :=
  match s with
  | EmptyString => EmptyString
  | String c rest =>
      match trim_end rest with
      | EmptyString => if is_white_space c then EmptyString
                       else String c EmptyString
      | kept => String c kept
      end
  end.

Definition trim (s : string) : string := trim_end (trim_start s).

(** A number in a template literal, for the natural numbers the code
    prints (time stamps, status codes). *)
Definition show (n : N) : string := NilZero.string_of_uint (N.to_uint n).

(** A JavaScript value as [response.json()] can return it, with
    [undefined] for what a property access can yield. *)
Inductive Value : Type :=
| Undefined
| Null
| Bool (b : bool)
| Number (q : Q)
| Str (s : string)
| Array (items : list Value)
| Object (props : list (string * Value)).

(** Truthiness ([ToBoolean]). *)
Definition truthy (v : Value) : bool :=
  match v with
  | Undefined | Null => false
  | Bool b => b
  | Number q => negb (Qeq_bool q 0)
  | Str s => truthy_string s
  | Array _ | Object _ => true
  end.

(** Completion of a piece of code that may throw; the payload of
    [Throw] is the error's message. *)
Inductive Completion (A : Type) : Type :=
| Normal (a : A)
| Throw (message : string).
Arguments Normal {A} a.
Arguments Throw {A} message.

Definition bind {A B : Type} (c : Completion A) (k : A -> Completion B)
  : Completion B :=
  match c with
  | Normal a => k a
  | Throw m => Throw m
  end.

(** Own property of a parsed object, [undefined] when absent. *)
Fixpoint lookup (k : string) (props : list (string * Value)) : Value :=
  match props with
  | [] => Undefined
  | (k', v) :: rest => if String.eqb k k' then v else lookup k rest
  end.

(** The property access [v.k] for a name [k] that no prototype defines
    (the code reads [result] and [response] only): a [TypeError] on
    [undefined] and [null], the own property on an object, [undefined]
    on every other value. *)
Definition get (v : Value) (k : string) : Completion Value :=
  match v with
  | Undefined =>
      Throw ("Cannot read properties of undefined (reading '" ++ k ++ "')")
  | Null =>
      Throw ("Cannot read properties of null (reading '" ++ k ++ "')")
  | Object props => Normal (lookup k props)
  | _ => Normal Undefined
  end.

End Js.

Notation "x <- c ;; k" := (Js.bind c (fun x => k))
  (at level 61, c at next level, right associativity).

(** ** FaceDetection.tsx: the emotion aggregator *)

Module FaceDetection.

(** One entry of [Object.entries(expressions)]: label and score. *)
Definition Entry : Type := (string * Q)%type.

(** A detection of [resizedDetections]; the bounding box only feeds the
    canvas and is left out. *)
Record Detection : Type := mkDetection { expressions : list Entry }.

(** The component's state cells read or written by [detectFaces]. *)
Record State : Type := mkState {
  isStreamActive : bool;
  detectedEmotion : option string
}.

Definition setDetectedEmotion (e : string) (st : State) : State :=
  {| isStreamActive := isStreamActive st; detectedEmotion := Some e |}.

(** The reducer [(prev, current) => prev[1] > current[1] ? prev : current]. *)
Definition pick (prev current : Entry) : Entry :=
  if Js.gt (snd prev) (snd current) then prev else current.

Definition dominantExpression (es : list Entry) : option Entry :=
  Js.reduce pick es.

(** What one run of [detectFaces] can be given: a call ahead of the
    selection raises (detector, resizing, drawing), or the detections
    arrive; [has_ctx] is whether the canvas gave a 2d context. *)
Inductive Frame : Type :=
| DetectorThrows
| Detected (has_ctx : bool) (resizedDetections : list Detection).

(** The body of the [try] block after the drawing calls: [None] is the
    exception caught by the surrounding [catch], which only logs. *)
Definition promote (ds : list Detection) (st : State) : option State :=
  match ds with
  | [] => Some st
  | detection :: _ =>
      match dominantExpression (expressions detection) with
      | None => None
      | Some dominant =>
          if Js.gt (snd dominant) (1 # 2)
          then Some (setDetectedEmotion (fst dominant) st)
          else Some st
      end
  end.

(** One run of [detectFaces] ([streaming] is the [isStreamActive] the
    closure holds, together with the two refs being set). *)
Definition detectFaces (streaming : bool) (f : Frame) (st : State) : State :=
  if negb streaming then st
  else match f with
       | DetectorThrows => st
       | Detected false _ => st
       | Detected true ds =>
           match promote ds st with
           | Some st' => st'
           | None => st
           end
       end.

End FaceDetection.


(** ** ChatInterface.tsx: transcript, chat dispatcher, dictation controller *)

Module ChatInterface.

Inductive Role : Type := system | user | assistant.

Definition Role_eqb (a b : Role) : bool :=
  match a, b with
  | system, system | user, user | assistant, assistant => true
  | _, _ => false
  end.

(** [interface Message].  [content] is declared a string; the value put
    there from the untyped response body is whatever the body held. *)
Record Message : Type := mkMessage {
  role : Role;
  content : Js.Value;
  id : string
}.

(** The [useState] cells of the component. *)
Record State : Type := mkState {
  messages : list Message;
  input : string;
  isLoading : bool;
  isListening : bool;
  speechSupported : bool;
  permissionError : option string;
  networkError : bool
}.

(** Callbacks handed to [setTimeout], with the variables their closures
    hold. *)
Inductive Task : Type :=
| StartAfterPermission               (* toggleListening, 100 ms *)
| RetryRestart (isListening : bool)  (* onerror, 2000 ms *)
| RetryStart                         (* inside RetryRestart, 300 ms *)
| EndRestart (isListening : bool).   (* onend, 300 ms *)

Record Timer : Type := mkTimer { timerId : nat; delay : N; task : Task }.

(** Calls made on the recogniser. *)
Inductive Call : Type := Start | Stop.

(** The [useRef] cells and the browser objects behind them: the pending
    timers, whether the recogniser is started (a second [start()] then
    raises [InvalidStateError]), and the calls made on it, oldest
    first. *)
Record Runtime : Type := mkRuntime {
  recognitionRef : bool;
  retryTimeoutRef : option nat;
  timers : list Timer;
  nextTimerId : nat;
  recognizerStarted : bool;
  recognizerCalls : list Call
}.

Record Component : Type := mkComponent { ui : State; rt : Runtime }.

(** *** Setters *)

Definition setMessages (f : list Message -> list Message) (s : State) :=
  mkState (f (messages s)) (input s) (isLoading s) (isListening s)
          (speechSupported s) (permissionError s) (networkError s).
Definition setInput (v : string) (s : State) :=
  mkState (messages s) v (isLoading s) (isListening s)
          (speechSupported s) (permissionError s) (networkError s).
Definition setIsLoading (b : bool) (s : State) :=
  mkState (messages s) (input s) b (isListening s)
          (speechSupported s) (permissionError s) (networkError s).
Definition setIsListening (b : bool) (s : State) :=
  mkState (messages s) (input s) (isLoading s) b
          (speechSupported s) (permissionError s) (networkError s).
Definition setPermissionError (e : option string) (s : State) :=
  mkState (messages s) (input s) (isLoading s) (isListening s)
          (speechSupported s) e (networkError s).
Definition setNetworkError (b : bool) (s : State) :=
  mkState (messages s) (input s) (isLoading s) (isListening s)
          (speechSupported s) (permissionError s) b.

Definition on_ui (f : State -> State) (c : Component) : Component :=
  mkComponent (f (ui c)) (rt c).

(** [setTimeout(task, delay)]: registers the timer and returns its id. *)
Definition setTimeout (t : Task) (d : N) (c : Component) : nat * Component :=
  let r := rt c in
  (nextTimerId r,
   mkComponent (ui c)
     (mkRuntime (recognitionRef r) (retryTimeoutRef r)
        (timers r ++ [mkTimer (nextTimerId r) d t])%list (S (nextTimerId r))
        (recognizerStarted r) (recognizerCalls r))).

(** [clearTimeout(id)]. *)
Definition clearTimeout (i : nat) (c : Component) : Component :=
  let r := rt c in
  mkComponent (ui c)
    (mkRuntime (recognitionRef r) (retryTimeoutRef r)
       (filter (fun t => negb (Nat.eqb (timerId t) i)) (timers r))
       (nextTimerId r) (recognizerStarted r) (recognizerCalls r)).

Definition setRetryTimeoutRef (i : nat) (c : Component) : Component :=
  let r := rt c in
  mkComponent (ui c)
    (mkRuntime (recognitionRef r) (Some i) (timers r) (nextTimerId r)
       (recognizerStarted r) (recognizerCalls r)).

Definition setRecognizer (started : bool) (calls : list Call)
    (c : Component) : Component :=
  let r := rt c in
  mkComponent (ui c)
    (mkRuntime (recognitionRef r) (retryTimeoutRef r) (timers r)
       (nextTimerId r) started calls).

(** [recognition.start()]: raises when the recogniser is already
    started.  The call is recorded either way. *)
Definition start (c : Component) : Js.Completion unit * Component :=
  let calls := (recognizerCalls (rt c) ++ [Start])%list in
  if recognizerStarted (rt c)
  then (Js.Throw "InvalidStateError", setRecognizer true calls c)
  else (Js.Normal tt, setRecognizer true calls c).

(** [recognition.stop()]: never raises; the recogniser reports [end]
    later. *)
Definition stop (c : Component) : Component :=
  setRecognizer (recognizerStarted (rt c))
    (recognizerCalls (rt c) ++ [Stop])%list c.

(** *** Mount *)

(** The state of the first render. *)
Definition initialState : State :=
  mkState [] "" false false false None false.

(** After the mount effect: [hasRecognition] is whether
    [window.SpeechRecognition] or its prefixed form exists. *)
Definition mount (hasRecognition : bool) : Component :=
  mkComponent
    (mkState [] "" false false hasRecognition None false)
    (mkRuntime hasRecognition None [] 1 false []).

(** The mount effect has no dependencies, so it runs once, in the scope
    of the first render: the [isListening] that its [onerror] closure
    reads is the one of [initialState] for the life of the component. *)
Definition onerror_isListening : bool := isListening initialState.

(** *** Dictation controller *)

(** [recognition.onresult]; the updater of [setInput] runs on the
    current input. *)
Definition onresult (transcript : string) (c : Component) : Component :=
  let join (prev : string) :=
    let trimmedTranscript := Js.trim transcript in
    if Js.truthy_string prev then prev ++ " " ++ trimmedTranscript
    else trimmedTranscript in
  on_ui (setNetworkError false)
    (on_ui (fun s => setInput (join (input s)) s) c).

(** [recognition.onerror]; [isListening] is the variable of the closure
    (see [onerror_isListening]). *)
Definition onerror (isListening : bool) (error : string) (c : Component)
  : Component :=
  let c1 :=
    if error =? "not-allowed" then
      on_ui (setPermissionError
               (Some "Microphone access was denied. Please check your browser permissions.")) c
    else if error =? "no-speech" then c
    else if error =? "network" then
      let c := on_ui (setNetworkError true) c in
      let c := on_ui (setPermissionError
                 (Some "Network error occurred. Please check your internet connection.")) c in
      let c := match retryTimeoutRef (rt c) with
               | Some i => clearTimeout i c
               | None => c
               end in
      let (i, c) := setTimeout (RetryRestart isListening) 2000 c in
      setRetryTimeoutRef i c
    else c in
  if negb (error =? "network") then on_ui (setIsListening false) c1 else c1.

(** [recognitionRef.current.onend] as the second effect installs it after
    every render that changed [isListening] or [networkError]: when the
    event is delivered the closure holds the committed values. *)
Definition onend (c : Component) : Component :=
  let isListening := isListening (ui c) in
  let networkError := networkError (ui c) in
  if isListening && negb networkError
  then snd (setTimeout (EndRestart isListening) 300 c)
  else on_ui (setIsListening false) c.

(** The body of a timer callback.  An exception of [start()] is not
    caught inside a callback: the callback ends there. *)
Definition runTask (t : Task) (c : Component) : Component :=
  match t with
  | StartAfterPermission =>
      match start c with
      | (Js.Normal _, c') => on_ui (setIsListening true) c'
      | (Js.Throw _, c') => c'
      end
  | RetryRestart isListening =>
      if isListening
      then (* try: neither call raises, the catch is not reached *)
           snd (setTimeout RetryStart 300 (stop c))
      else c
  | RetryStart =>
      match start c with
      | (Js.Normal _, c') =>
          on_ui (setPermissionError None) (on_ui (setNetworkError false) c')
      | (Js.Throw _, c') => c'
      end
  | EndRestart isListening =>
      if isListening then snd (start c) else c
  end.

(** A pending timer fires. *)
Definition fire (i : nat) (c : Component) : Component :=
  match find (fun t => Nat.eqb (timerId t) i) (timers (rt c)) with
  | Some t => runTask (task t) (clearTimeout i c)
  | None => c
  end.

(** *** Chat dispatcher *)

Record ImportMetaEnv : Type := mkEnv {
  VITE_CF_ACCOUNT_ID : string;
  VITE_CF_API_KEY : string
}.

(** The [fetch] call; [body] is the [messages] array handed to
    [JSON.stringify]. *)
Record Request : Type := mkRequest {
  url : string;
  method : string;
  headers : list (string * string);
  body : list (Role * Js.Value)
}.

(** What a handler asks of the browser besides timers. *)
Inductive Effect : Type :=
| Fetch (r : Request)
| GetUserMedia.

Definition toggleListening (c : Component) : Component * list Effect :=
  if negb (speechSupported (ui c)) || negb (recognitionRef (rt c))
  then (c, [])
  else
    let listening := isListening (ui c) in
    let c := on_ui (setPermissionError None) c in
    let c := on_ui (setNetworkError false) c in
    if listening
    then (on_ui (setIsListening false) (stop c), [])
    else (c, [GetUserMedia]).

(** The two settlements of the [getUserMedia] promise. *)
Definition micGranted (c : Component) : Component :=
  snd (setTimeout StartAfterPermission 100 c).

Definition micDenied (c : Component) : Component :=
  on_ui (setIsListening false)
    (on_ui (setPermissionError
              (Some "Microphone access was denied. Please enable it in your browser settings.")) c).

Definition clearChat (c : Component) : Component :=
  on_ui (setMessages (fun _ => [])) c.

Definition fallback : string :=
  "Sorry, I had trouble processing your request. Please try again.".

Definition systemPrompt (currentEmotion : option string) : string :=
  "You are an emotion powered chatbot. Your responses are influenced by the user emotions. Currently the user is "
  ++ Js.or_else currentEmotion "neutral" ++ "!".

Definition endpoint (env : ImportMetaEnv) : string :=
  "/api/cloudflare/client/v4/accounts/" ++ VITE_CF_ACCOUNT_ID env
  ++ "/ai/run/@cf/meta/llama-2-7b-chat-fp16".

(** [{ role: msg.role, content: msg.content }]. *)
Definition wire (msg : Message) : Role * Js.Value := (role msg, content msg).

(** [sendMessage] up to its first [await]: [currentEmotion], [input],
    [messages] and [isListening] are the values of the render the handler
    belongs to; [tUser] and [tSystem] are the two readings of
    [Date.now()]. *)
Definition sendMessage (env : ImportMetaEnv) (currentEmotion : option string)
    (tUser tSystem : N) (c : Component) : Component * list Effect :=
  if negb (Js.truthy_string (Js.trim (input (ui c)))) then (c, [])
  else
    let c1 :=
      if isListening (ui c) && recognitionRef (rt c)
      then on_ui (setIsListening false) (stop c)
      else c in
    let userMessage :=
      mkMessage user (Js.Str (input (ui c))) ("user-" ++ Js.show tUser) in
    let c2 := on_ui (setMessages (fun prev => (prev ++ [userMessage])%list)) c1 in
    let c3 := on_ui (setInput "") c2 in
    let c4 := on_ui (setIsLoading true) c3 in
    let systemMessage :=
      mkMessage system (Js.Str (systemPrompt currentEmotion))
                ("system-" ++ Js.show tSystem) in
    let conversationHistory :=
      filter (fun msg => negb (Role_eqb (role msg) system))
             (messages (ui c)) in
    (c4,
     [Fetch (mkRequest (endpoint env) "POST"
               [("Content-Type", "application/json");
                ("Authorization", "Bearer " ++ VITE_CF_API_KEY env)]
               ([wire systemMessage]
                ++ map wire conversationHistory
                ++ [wire userMessage])%list)]).

(** How the request ends: [fetch] rejects, or there is a response whose
    body [response.json()] rejects or parses. *)
Inductive Body : Type :=
| JsonRejects (message : string)
| Json (data : Js.Value).

Inductive FetchOutcome : Type :=
| FetchRejects (message : string)
| Response (status : N) (body : Body).

(** [response.ok]. *)
Definition ok (status : N) : bool :=
  N.leb 200 status && N.leb status 299.

(** The rest of the [try] block: the state update it performs, or the
    exception it raises. *)
Definition afterFetch (out : FetchOutcome) (tReply : N)
  : Js.Completion (State -> State) :=
  match out with
  | FetchRejects m => Js.Throw m
  | Response status body =>
      if negb (ok status)
      then Js.Throw ("API responded with status " ++ Js.show status)
      else
        data <- match body with
                | JsonRejects m => Js.Throw m
                | Json d => Js.Normal d
                end ;;
        result <- Js.get data "result" ;;
        test <- (if Js.truthy result then Js.get result "response"
                 else Js.Normal result) ;;
        if Js.truthy test then
          result <- Js.get data "result" ;;
          response <- Js.get result "response" ;;
          Js.Normal
            (setMessages (fun prev =>
               (prev ++ [mkMessage assistant response
                                   ("assistant-" ++ Js.show tReply)])%list))
        else Js.Throw "Unexpected response format from API"
  end.

(** [sendMessage] from the settlement of [fetch] on: [try], [catch]
    (the error goes to the console only) and [finally]. *)
Definition settle (out : FetchOutcome) (tReply : N) (c : Component)
  : Component :=
  let c' :=
    match afterFetch out tReply with
    | Js.Normal update => on_ui update c
    | Js.Throw error =>
        on_ui (setMessages (fun prev =>
                 (prev ++ [mkMessage assistant (Js.Str fallback)
                                     ("error-" ++ Js.show tReply)])%list)) c
    end in
  on_ui (setIsLoading false) c'.

(** *** Events *)

Inductive Event : Type :=
| Change (value : string)              (* onChange of the text input *)
| Submit (tUser tSystem : N)           (* onSubmit of the form *)
| Settled (out : FetchOutcome) (tReply : N)
| ClearChat
| ToggleListening
| MicGranted
| MicDenied
| Timeout (id : nat)
| RecogResult (transcript : string)
| RecogError (error : string)
| RecogEnd.

(** The recogniser stops being started when it reports [error] or
    [end]. *)
Definition stopped (c : Component) : Component :=
  setRecognizer false (recognizerCalls (rt c)) c.

Definition dispatch (env : ImportMetaEnv) (currentEmotion : option string)
    (ev : Event) (c : Component) : Component * list Effect :=
  match ev with
  | Change value => (on_ui (setInput value) c, [])
  | Submit tUser tSystem => sendMessage env currentEmotion tUser tSystem c
  | Settled out tReply => (settle out tReply c, [])
  | ClearChat => (clearChat c, [])
  | ToggleListening => toggleListening c
  | MicGranted => (micGranted c, [])
  | MicDenied => (micDenied c, [])
  | Timeout i => (fire i c, [])
  | RecogResult transcript => (onresult transcript c, [])
  | RecogError error => (onerror onerror_isListening error (stopped c), [])
  | RecogEnd => (onend (stopped c), [])
  end.

End ChatInterface.

(** ** App.tsx: the shared current emotion and the two components *)

Module App.

Record State : Type := mkState {
  currentEmotion : option string;
  face : FaceDetection.State;
  chat : ChatInterface.Component
}.

(** The first render and its mount effects. *)
Definition init (hasRecognition : bool) : State :=
  mkState None (FaceDetection.mkState false None)
          (ChatInterface.mount hasRecognition).

(** [handleEmotionDetected]. *)
Definition handleEmotionDetected (emotion : string) (st : State) : State :=
  mkState (Some emotion) (face st) (chat st).

(** The effect of [FaceDetection] with dependency [detectedEmotion]: it
    runs when the value differs from the one of the previous render,
    and calls back when the value is truthy. *)
Definition notifyParent (before : option string) (st : State) : State :=
  let now := FaceDetection.detectedEmotion (face st) in
  if Js.same before now then st
  else match now with
       | Some e => if Js.truthy_string e then handleEmotionDetected e st
                   else st
       | None => st
       end.

(** A detection cycle: [detectFaces] on the frame, then the render and
    its effects.  [streaming] is the [isStreamActive] of the closure
    that [handleVideoPlay] created. *)
Definition detectionCycle (streaming : bool) (f : FaceDetection.Frame)
    (st : State) : State :=
  let before := FaceDetection.detectedEmotion (face st) in
  notifyParent before
    (mkState (currentEmotion st)
             (FaceDetection.detectFaces streaming f (face st))
             (chat st)).

Inductive Event : Type :=
| Stream (active : bool)       (* startVideo succeeded / stopVideo *)
| Cycle (streaming : bool) (f : FaceDetection.Frame)
| Chat (ev : ChatInterface.Event).

Definition step (env : ChatInterface.ImportMetaEnv) (ev : Event) (st : State)
  : State * list ChatInterface.Effect :=
  match ev with
  | Stream active =>
      (mkState (currentEmotion st)
         (FaceDetection.mkState active
            (FaceDetection.detectedEmotion (face st)))
         (chat st), [])
  | Cycle streaming f => (detectionCycle streaming f st, [])
  | Chat ev =>
      let (c, out) :=
        ChatInterface.dispatch env (currentEmotion st) ev (chat st) in
      (mkState (currentEmotion st) (face st) c, out)
  end.

(** The state after a sequence of events, oldest first. *)
Definition run (env : ChatInterface.ImportMetaEnv) (evs : list Event)
    (st : State) : State :=
  fold_left (fun s ev => fst (step env ev s)) evs st.

(** The states the application can be in. *)
Definition reachable (env : ChatInterface.ImportMetaEnv) (st : State) : Prop :=
  exists hasRecognition evs, st = run env evs (init hasRecognition).

End App.

(** ** Vocabulary of the statements *)

Module Spec.

Import FaceDetection.

(** Position of the entry the reduction ends on: nothing before it is
    larger, everything after it is strictly smaller. *)
Definition last_maximum (es : list Entry) (dom : Entry) : Prop :=
  exists before after,
    es = (before ++ dom :: after)%list
    /\ (forall e, In e before -> (snd e <= snd dom)%Q)
    /\ (forall e, In e after -> (snd e < snd dom)%Q).

(** The selection as the specification words it: the highest score, ties
    going to the entry met first (an entry replaces the one held only
    when it is strictly larger). *)
Definition firstEncounteredMaximum (es : list Entry) : option Entry :=
  Js.reduce
    (fun held current =>
       if Js.gt (snd current) (snd held) then current else held) es.

(** A string made of white space only (the empty string included). *)
Definition whitespace_only (s : string) : bool :=
  forallb Js.is_white_space (list_ascii_of_string s).

(** The value of the expression [data.result.response]. *)
Definition result_response (data : Js.Value) : Js.Completion Js.Value :=
  result <- Js.get data "result" ;; Js.get result "response".

(** The body lacks [result.response]: evaluating the path raises or
    yields [undefined]. *)
Definition lacks_result_response (data : Js.Value) : Prop :=
  result_response data = Js.Normal Js.Undefined
  \/ exists m, result_response data = Js.Throw m.

(** The failures of a completed request: the call throws, the status is
    not 2xx, the body does not parse or lacks [result.response]. *)
Definition failed (out : ChatInterface.FetchOutcome) : Prop :=
  match out with
  | ChatInterface.FetchRejects _ => True
  | ChatInterface.Response status body =>
      ChatInterface.ok status = false
      \/ match body with
         | ChatInterface.JsonRejects _ => True
         | ChatInterface.Json data => lacks_result_response data
         end
  end.

(** The label a promoted emotion contributes to the prompt. *)
Definition emotionLabel (currentEmotion : option string) : string :=
  match currentEmotion with
  | Some e => e
  | None => "neutral"
  end.

(** No stored message has the system role. *)
Definition no_system (ms : list ChatInterface.Message) : Prop :=
  Forall (fun m => ChatInterface.role m <> ChatInterface.system) ms.

(** Only a truthy label is ever promoted. *)
Definition promoted_truthy (st : App.State) : Prop :=
  forall e, App.currentEmotion st = Some e -> Js.truthy_string e = true.

Definition not_system (m : ChatInterface.Message) : bool :=
  match ChatInterface.role m with
  | ChatInterface.system => false
  | _ => true
  end.

End Spec.

(** ** FaceDetection.tsx: model loading and the camera list *)

Module FaceSetup.

(** The fields of a [MediaDeviceInfo] the component reads. *)
Record MediaDeviceInfo : Type := mkDevice {
  kind : string;
  deviceId : string;
  label : string
}.

(** The state cells written while the component sets itself up. *)
Record State : Type := mkState {
  isModelLoading : bool;
  error : option string;
  cameras : list MediaDeviceInfo;
  selectedCamera : string
}.

(** The first render. *)
Definition init : State := mkState true None [] "".

Definition setError (e : string) (st : State) : State :=
  mkState (isModelLoading st) (Some e) (cameras st) (selectedCamera st).
Definition setIsModelLoading (b : bool) (st : State) : State :=
  mkState b (error st) (cameras st) (selectedCamera st).
Definition setCameras (cs : list MediaDeviceInfo) (st : State) : State :=
  mkState (isModelLoading st) (error st) cs (selectedCamera st).
Definition setSelectedCamera (i : string) (st : State) : State :=
  mkState (isModelLoading st) (error st) (cameras st) i.

(** [loadCameras]; [enumerated] is the settlement of
    [enumerateDevices()], [None] when it rejects. *)
Definition loadCameras (enumerated : option (list MediaDeviceInfo))
    (st : State) : State :=
  match enumerated with
  | Some devices =>
      let videoDevices :=
        filter (fun device => kind device =? "videoinput") devices in
      let st := setCameras videoDevices st in
      match videoDevices with
      | first :: _ => setSelectedCamera (deviceId first) st
      | [] => st
      end
  | None =>
      setError "Unable to access camera list. Please check your permissions."
               st
  end.

(** [loadModels]: the three booleans say whether the detector, the
    landmark net and the expression net loaded; [Promise.all] rejects as
    soon as one of them does. *)
Definition loadModels (tinyFaceDetector faceLandmark68Net faceExpressionNet : bool)
    (enumerated : option (list MediaDeviceInfo)) (st : State) : State :=
  if tinyFaceDetector && faceLandmark68Net && faceExpressionNet
  then loadCameras enumerated (setIsModelLoading false st)
  else setError
         "Failed to load models. Please check your internet connection and refresh the page."
         st.

(** Which of the three returns of the component's body is taken. *)
Inductive View : Type :=
| ErrorView (message : string)
| LoadingView
| MainView.

Definition render (st : State) : View :=
  match error st with
  | Some e => if Js.truthy_string e then ErrorView e
              else if isModelLoading st then LoadingView else MainView
  | None => if isModelLoading st then LoadingView else MainView
  end.

(** The text of a camera's [option]:
    [camera.label || `Camera ${camera.deviceId.slice(0, 5)}...`]. *)
Definition optionText (camera : MediaDeviceInfo) : string :=
  if Js.truthy_string (label camera) then label camera
  else "Camera " ++ substring 0 5 (deviceId camera) ++ "...".

End FaceSetup.

(** ** Invariants of the reachable states *)

Module Inv.

Import ChatInterface.

(** The current emotion follows the detected one: a truthy detected label
    is the current emotion. *)
Definition emotion_in_step (st : App.State) : Prop :=
  forall e,
    FaceDetection.detectedEmotion (App.face st) = Some e ->
    Js.truthy_string e = true ->
    App.currentEmotion st = Some e.

(** The three shapes of a stored message: what [sendMessage] appends on
    submission, on a reply and on a failure. *)
Definition stored_shape (m : Message) : Prop :=
  (role m = user
   /\ exists s t, content m = Js.Str s /\ Js.trim s <> ""
                  /\ id m = "user-" ++ Js.show t)
  \/ (role m = assistant /\ Js.truthy (content m) = true
      /\ exists t, id m = "assistant-" ++ Js.show t)
  \/ (role m = assistant /\ content m = Js.Str fallback
      /\ exists t, id m = "error-" ++ Js.show t).

(** Every pending timer has an id below the next one to be given out. *)
Definition timers_fresh (c : Component) : Prop :=
  Forall (fun t => (timerId t < nextTimerId (rt c))%nat) (timers (rt c)).

Definition is_retry (t : Timer) : bool :=
  match task t with
  | RetryRestart _ => true
  | _ => false
  end.

(** The pending timers of the network retry: the inner restart is never
    pending, and a pending retry holds [false], waits 2000 ms and is the
    one [retryTimeoutRef] names. *)
Definition retry_discipline (c : Component) : Prop :=
  Forall (fun t =>
            match task t with
            | RetryStart => False
            | RetryRestart isListening =>
                isListening = false /\ delay t = 2000%N
                /\ retryTimeoutRef (rt c) = Some (timerId t)
            | _ => True
            end)
         (timers (rt c)).

(** A timer that is neither a retry nor its inner restart. *)
Definition plain (t : Timer) : Prop :=
  match task t with
  | RetryStart | RetryRestart _ => False
  | _ => True
  end.

(** The retry discipline, with at most one retry pending. *)
Definition retry_single (c : Component) : Prop :=
  retry_discipline c
  /\ (List.length (filter is_retry (timers (rt c))) <= 1)%nat.

(** [isLoading] after an event, read off the handlers. *)
Definition busy_after (ev : Event) (c : Component) : bool :=
  match ev with
  | Submit _ _ =>
      if Js.truthy_string (Js.trim (input (ui c))) then true
      else isLoading (ui c)
  | Settled _ _ => false
  | _ => isLoading (ui c)
  end.

End Inv.

(** * Properties *)

(** ** The helpers on concrete values *)

Example trim_inner_space_kept : Js.trim "  how are  you? " = "how are  you?".
Proof. reflexivity. Qed.

Example trim_tabs_and_newlines :
  Js.trim (String (ascii_of_nat 9) (String (ascii_of_nat 10) " ")) = "".
Proof. reflexivity. Qed.

Example show_status : Js.show 503 = "503" /\ Js.show 0 = "0".
Proof. split; reflexivity. Qed.

Example reduce_empty_throws : FaceDetection.dominantExpression [] = None.
Proof. reflexivity. Qed.

Example dominant_of_a_frame :
  FaceDetection.dominantExpression
    [("neutral", 1 # 10); ("happy", 7 # 10); ("sad", 1 # 5)]%Q
  = Some ("happy", (7 # 10)%Q).
Proof. reflexivity. Qed.

Example prompt_without_emotion :
  ChatInterface.systemPrompt None
  = "You are an emotion powered chatbot. Your responses are influenced by the user emotions. Currently the user is neutral!".
Proof. reflexivity. Qed.

Example null_body_raises :
  Spec.result_response Js.Null
  = Js.Throw "Cannot read properties of null (reading 'result')".
Proof. reflexivity. Qed.

Example numeric_response_is_appended :
  map ChatInterface.content
    (ChatInterface.messages
       (ChatInterface.ui
          (ChatInterface.settle
             (ChatInterface.Response 200
                (ChatInterface.Json
                   (Js.Object
                      [("result", Js.Object [("response", Js.Number 42)])])))
             0 (ChatInterface.mount false))))
  = [Js.Number 42].
Proof. reflexivity. Qed.

(** ** The emotion aggregator *)

Section Aggregator.

Import FaceDetection Spec.

Lemma gt_true (a b : Q) : Js.gt a b = true <-> (b < a)%Q.
Proof.
  unfold Js.gt. rewrite negb_true_iff.
  split; intro H.
  - apply Qnot_le_lt. intro Hle. apply Qle_bool_iff in Hle. congruence.
  - destruct (Qle_bool a b) eqn:E; [|reflexivity].
    apply Qle_bool_iff in E. exfalso. exact (Qlt_not_le _ _ H E).
Qed.

Lemma gt_false (a b : Q) : Js.gt a b = false <-> (a <= b)%Q.
Proof.
  unfold Js.gt. rewrite negb_false_iff. apply Qle_bool_iff.
Qed.

(** Invariant of the fold: the accumulator, the entries before it and
    the entries already compared with it. *)
Lemma fold_pick_split (rest : list Entry) :
  forall (before : list Entry) (acc : Entry) (seen : list Entry),
    (forall e, In e before -> (snd e <= snd acc)%Q) ->
    (forall e, In e seen -> (snd e < snd acc)%Q) ->
    last_maximum (before ++ acc :: seen ++ rest)%list
                 (fold_left pick rest acc).
Proof.
  induction rest as [|y rest IH]; intros before acc seen Hb Hs.
  - cbn [fold_left]. exists before, seen.
    rewrite app_nil_r. auto.
  - cbn [fold_left]. unfold pick at 2.
    destruct (Js.gt (snd acc) (snd y)) eqn:E.
    + apply gt_true in E.
      replace (before ++ acc :: seen ++ y :: rest)%list
        with (before ++ acc :: (seen ++ [y]) ++ rest)%list
        by (rewrite <- app_assoc; reflexivity).
      apply IH; [exact Hb|].
      intros e He. apply in_app_or in He.
      destruct He as [He|[<-|[]]]; auto.
    + apply gt_false in E.
      replace (before ++ acc :: seen ++ y :: rest)%list
        with ((before ++ acc :: seen) ++ y :: [] ++ rest)%list
        by (rewrite <- app_assoc; reflexivity).
      apply IH.
      * intros e He. apply in_app_or in He.
        destruct He as [He|[<-|He]].
        -- eapply Qle_trans; [apply Hb, He|exact E].
        -- exact E.
        -- apply Qlt_le_weak. eapply Qlt_le_trans; [apply Hs, He|exact E].
      * intros e [].
Qed.

Lemma reduce_pick_last_maximum (x : Entry) (rest : list Entry) :
  last_maximum (x :: rest) (fold_left pick rest x).
Proof. apply (fold_pick_split rest [] x []); intros e []. Qed.

Lemma last_maximum_is_max (es : list Entry) (dom : Entry) :
  last_maximum es dom ->
  In dom es /\ forall e, In e es -> (snd e <= snd dom)%Q.
Proof.
  intros (before & after & -> & Hb & Ha). split.
  - apply in_or_app. right. left. reflexivity.
  - intros e He. apply in_app_or in He.
    destruct He as [He|[<-|He]].
    + auto.
    + apply Qle_refl.
    + apply Qlt_le_weak. auto.
Qed.

Lemma same_refl (o : option string) : Js.same o o = true.
Proof. destruct o; cbn; [apply String.eqb_refl|reflexivity]. Qed.

(** A frame whose dominant score does not exceed the threshold leaves
    the whole application state as it was. *)
Lemma low_confidence_cycle (es : list Entry) (dom : Entry) :
  dominantExpression es = Some dom ->
  (snd dom <= 1 # 2)%Q ->
  forall streaming has_ctx others st,
    App.detectionCycle streaming
      (Detected has_ctx (mkDetection es :: others)) st = st.
Proof.
  intros Hdom Hlow streaming has_ctx others [emo fc ch].
  apply gt_false in Hlow.
  unfold App.detectionCycle, App.notifyParent, detectFaces, promote.
  cbn [App.face App.currentEmotion App.chat expressions].
  rewrite Hdom, Hlow.
  destruct streaming, has_ctx; cbn; rewrite same_refl; reflexivity.
Qed.

End Aggregator.

(** C1. For every non-empty score set of a frame, [dominantExpression]
    returns an entry of the set whose score no other entry exceeds; and
    when that score is at most 0.5 the detection cycle changes nothing, so
    the shared current emotion keeps the last confident reading. *)
Theorem C1_dominant_is_maximum_and_gated :
  forall es : list FaceDetection.Entry,
    es <> [] ->
    exists dom,
      FaceDetection.dominantExpression es = Some dom
      /\ In dom es
      /\ (forall e, In e es -> (snd e <= snd dom)%Q)
      /\ ((snd dom <= 1 # 2)%Q ->
          forall streaming has_ctx others st,
            App.currentEmotion
              (App.detectionCycle streaming
                 (FaceDetection.Detected has_ctx
                    (FaceDetection.mkDetection es :: others)) st)
            = App.currentEmotion st).
Proof.
  intros [|x rest] Hne; [congruence|].
  exists (fold_left FaceDetection.pick rest x).
  pose proof (last_maximum_is_max _ _ (reduce_pick_last_maximum x rest))
    as [Hin Hmax].
  repeat split; auto.
  intros Hlow streaming has_ctx others st.
  rewrite (low_confidence_cycle (x :: rest) _ eq_refl Hlow). reflexivity.
Qed.

(** The seven labels of the expression classifier, none above 0.5. *)
Lemma C1_witness :
  let es := [("neutral", 2 # 5); ("happy", 3 # 10); ("sad", 1 # 10);
             ("angry", 1 # 10); ("fearful", 1 # 20); ("disgusted", 1 # 40);
             ("surprised", 1 # 40)]%Q in
  es <> []
  /\ exists dom,
      FaceDetection.dominantExpression es = Some dom
      /\ In dom es
      /\ (forall e, In e es -> (snd e <= snd dom)%Q)
      /\ ((snd dom <= 1 # 2)%Q ->
          forall streaming has_ctx others st,
            App.currentEmotion
              (App.detectionCycle streaming
                 (FaceDetection.Detected has_ctx
                    (FaceDetection.mkDetection es :: others)) st)
            = App.currentEmotion st).
Proof.
  intro es.
  assert (Hne : es <> []) by (subst es; discriminate).
  split; [exact Hne|].
  exact (C1_dominant_is_maximum_and_gated es Hne).
Defined.

(** C9 (as the code has it). For every non-empty score set the selected
    entry is the last one carrying the maximum: no earlier entry is
    larger and every later entry is strictly smaller, so among entries
    tied at the maximum the last in iteration order is selected. *)
Theorem C9_ties_select_last_encountered :
  forall es : list FaceDetection.Entry,
    es <> [] ->
    exists before dom after,
      es = (before ++ dom :: after)%list
      /\ FaceDetection.dominantExpression es = Some dom
      /\ (forall e, In e before -> (snd e <= snd dom)%Q)
      /\ (forall e, In e after -> (snd e < snd dom)%Q).
Proof.
  intros [|x rest] Hne; [congruence|].
  destruct (reduce_pick_last_maximum x rest) as (before & after & E & Hb & Ha).
  exists before, (fold_left FaceDetection.pick rest x), after.
  repeat split; assumption.
Qed.

Lemma C9_witness :
  let es := [("neutral", 2 # 5); ("happy", 2 # 5); ("sad", 1 # 5)]%Q in
  es <> []
  /\ exists before dom after,
      es = (before ++ dom :: after)%list
      /\ FaceDetection.dominantExpression es = Some dom
      /\ (forall e, In e before -> (snd e <= snd dom)%Q)
      /\ (forall e, In e after -> (snd e < snd dom)%Q).
Proof.
  intro es.
  assert (Hne : es <> []) by (subst es; discriminate).
  split; [exact Hne|].
  exact (C9_ties_select_last_encountered es Hne).
Defined.

(** C9 as stated fails: with "neutral" and "happy" tied at 0.4 the code
    selects "happy", the later of the two, where first-encountered
    tie-breaking selects "neutral". *)
Lemma C9_first_encountered_refuted :
  FaceDetection.dominantExpression
    [("neutral", 2 # 5); ("happy", 2 # 5); ("sad", 1 # 5)]%Q
  = Some ("happy", (2 # 5)%Q)
  /\ Spec.firstEncounteredMaximum
       [("neutral", 2 # 5); ("happy", 2 # 5); ("sad", 1 # 5)]%Q
     = Some ("neutral", (2 # 5)%Q)
  /\ FaceDetection.dominantExpression
       [("neutral", 2 # 5); ("happy", 2 # 5); ("sad", 1 # 5)]%Q
     <> Spec.firstEncounteredMaximum
          [("neutral", 2 # 5); ("happy", 2 # 5); ("sad", 1 # 5)]%Q.
Proof.
  repeat split; try reflexivity.
  vm_compute. discriminate.
Qed.

(** ** The chat dispatcher *)

Section Dispatcher.

Import ChatInterface Spec.

Variable env : ImportMetaEnv.

Lemma trim_whitespace_only (s : string) :
  whitespace_only s = true -> Js.trim s = "".
Proof.
  unfold whitespace_only, Js.trim.
  induction s as [|c s IH]; cbn [list_ascii_of_string forallb Js.trim_start].
  - reflexivity.
  - intro H. apply andb_prop in H. destruct H as [Hc Hs].
    rewrite Hc. auto.
Qed.

Lemma truthy_string_true (s : string) :
  Js.truthy_string s = true <-> s <> "".
Proof. destruct s; cbn; split; congruence. Qed.

Lemma filter_not_system (ms : list Message) :
  filter (fun msg => negb (Role_eqb (role msg) system)) ms
  = filter not_system ms.
Proof.
  apply filter_ext. intro m. unfold not_system.
  destruct (role m); reflexivity.
Qed.

Lemma step_promoted_truthy ev st :
  promoted_truthy st -> promoted_truthy (fst (App.step env ev st)).
Proof.
  intro H. destruct ev as [active|streaming f|ev]; cbn [App.step fst].
  - exact H.
  - unfold App.detectionCycle, App.notifyParent.
    cbn [App.face App.currentEmotion].
    destruct (Js.same _ _); [exact H|].
    destruct (FaceDetection.detectedEmotion _) as [e|]; [|exact H].
    destruct (Js.truthy_string e) eqn:E; [|exact H].
    intros e' [= <-]. exact E.
  - destruct (dispatch env (App.currentEmotion st) ev (App.chat st)).
    exact H.
Qed.

Lemma run_promoted_truthy evs :
  forall st, promoted_truthy st -> promoted_truthy (App.run env evs st).
Proof.
  unfold App.run.
  induction evs as [|ev evs IH]; intros st H; cbn [fold_left].
  - exact H.
  - apply IH, step_promoted_truthy, H.
Qed.

Lemma reachable_promoted_truthy st :
  App.reachable env st -> promoted_truthy st.
Proof.
  intros (has & evs & ->). apply run_promoted_truthy.
  intros e. cbn. discriminate.
Qed.

Lemma or_else_label (emo : option string) :
  (forall e, emo = Some e -> Js.truthy_string e = true) ->
  Js.or_else emo "neutral" = emotionLabel emo.
Proof.
  destruct emo as [e|]; cbn; [|reflexivity].
  intro H. rewrite (H e eq_refl). reflexivity.
Qed.

End Dispatcher.

(** C2. In every state the application can reach, submitting an input
    that is not white space only issues one request whose message list
    is: the system message built from the fixed template and the current
    emotion label ("neutral" when none has been promoted), then the
    transcript of that moment without its system-role entries, in order,
    then the submitted user message. *)
Theorem C2_request_payload :
  forall env st tUser tSystem,
    App.reachable env st ->
    Js.trim (ChatInterface.input (ChatInterface.ui (App.chat st))) <> "" ->
    exists r,
      snd (App.step env (App.Chat (ChatInterface.Submit tUser tSystem)) st)
      = [ChatInterface.Fetch r]
      /\ ChatInterface.body r
         = ((ChatInterface.system,
             Js.Str ("You are an emotion powered chatbot. Your responses are influenced by the user emotions. Currently the user is "
                     ++ Spec.emotionLabel (App.currentEmotion st) ++ "!"))
            :: map ChatInterface.wire
                 (filter Spec.not_system
                    (ChatInterface.messages (ChatInterface.ui (App.chat st))))
            ++ [(ChatInterface.user,
                 Js.Str (ChatInterface.input
                           (ChatInterface.ui (App.chat st))))])%list.
Proof.
  intros env st tUser tSystem Hreach Hin.
  apply truthy_string_true in Hin.
  cbn [App.step ChatInterface.dispatch]. unfold ChatInterface.sendMessage.
  rewrite Hin. cbn [negb snd].
  eexists. split; [reflexivity|].
  cbn [ChatInterface.body ChatInterface.wire ChatInterface.role
       ChatInterface.content app].
  unfold ChatInterface.systemPrompt.
  rewrite (or_else_label _ (reachable_promoted_truthy env st Hreach)).
  rewrite filter_not_system. reflexivity.
Qed.

Lemma C2_witness :
  let env := ChatInterface.mkEnv "acct" "key" in
  let st :=
    App.run env
      [App.Stream true;
       App.Cycle true
         (FaceDetection.Detected true
            [FaceDetection.mkDetection
               [("neutral", 1 # 10); ("happy", 9 # 10)]%Q]);
       App.Chat (ChatInterface.Change "hi");
       App.Chat (ChatInterface.Submit 1 2);
       App.Chat (ChatInterface.Settled
                   (ChatInterface.Response 200
                      (ChatInterface.Json
                         (Js.Object
                            [("result",
                              Js.Object [("response", Js.Str "Hello")])])))
                   3);
       App.Chat (ChatInterface.Change " and you? ")]
      (App.init true) in
  App.reachable env st
  /\ Js.trim (ChatInterface.input (ChatInterface.ui (App.chat st))) <> ""
  /\ exists r,
      snd (App.step env (App.Chat (ChatInterface.Submit 4 5)) st)
      = [ChatInterface.Fetch r]
      /\ ChatInterface.body r
         = ((ChatInterface.system,
             Js.Str ("You are an emotion powered chatbot. Your responses are influenced by the user emotions. Currently the user is "
                     ++ Spec.emotionLabel (App.currentEmotion st) ++ "!"))
            :: map ChatInterface.wire
                 (filter Spec.not_system
                    (ChatInterface.messages (ChatInterface.ui (App.chat st))))
            ++ [(ChatInterface.user,
                 Js.Str (ChatInterface.input
                           (ChatInterface.ui (App.chat st))))])%list.
Proof.
  intros env st.
  assert (Hreach : App.reachable env st)
    by (exists true; eexists; reflexivity).
  assert (Hin : Js.trim (ChatInterface.input
                           (ChatInterface.ui (App.chat st))) <> "")
    by (vm_compute; discriminate).
  exact (conj Hreach (conj Hin (C2_request_payload env st 4 5 Hreach Hin))).
Defined.

(** C7. Submitting an input that is empty or white space only changes
    nothing in the application (transcript, input and busy flag included)
    and asks nothing of the browser: no request is issued. *)
Theorem C7_blank_submission_is_noop :
  forall env st tUser tSystem,
    Spec.whitespace_only
      (ChatInterface.input (ChatInterface.ui (App.chat st))) = true ->
    App.step env (App.Chat (ChatInterface.Submit tUser tSystem)) st = (st, []).
Proof.
  intros env [emo fc ch] tUser tSystem H.
  cbn [App.step ChatInterface.dispatch App.chat App.currentEmotion App.face] in *.
  unfold ChatInterface.sendMessage.
  rewrite (trim_whitespace_only _ H). reflexivity.
Qed.

Lemma C7_witness :
  let env := ChatInterface.mkEnv "acct" "key" in
  let st := App.run env [App.Chat (ChatInterface.Change "   ")]
                    (App.init true) in
  Spec.whitespace_only
    (ChatInterface.input (ChatInterface.ui (App.chat st))) = true
  /\ App.step env (App.Chat (ChatInterface.Submit 1 2)) st = (st, []).
Proof.
  intros env st.
  assert (H : Spec.whitespace_only
                (ChatInterface.input (ChatInterface.ui (App.chat st))) = true)
    by reflexivity.
  exact (conj H (C7_blank_submission_is_noop env st 1 2 H)).
Defined.

(** C5. A submission whose trimmed input is not empty leaves the busy
    flag set and issues its request; and whatever way the request ends
    (fetch rejects, a status outside 2xx, a body that does not parse or
    has the wrong shape, or success), and in whatever state the component
    is by then, the dispatcher finishes with the busy flag cleared. *)
Theorem C5_busy_flag_released :
  forall env currentEmotion tUser tSystem c,
    Js.trim (ChatInterface.input (ChatInterface.ui c)) <> "" ->
    ChatInterface.isLoading
      (ChatInterface.ui
         (fst (ChatInterface.sendMessage env currentEmotion tUser tSystem c)))
    = true
    /\ (exists r,
          snd (ChatInterface.sendMessage env currentEmotion tUser tSystem c)
          = [ChatInterface.Fetch r])
    /\ forall out tReply c',
         ChatInterface.isLoading
           (ChatInterface.ui (ChatInterface.settle out tReply c')) = false.
Proof.
  intros env emo tUser tSystem c Hin.
  apply truthy_string_true in Hin.
  unfold ChatInterface.sendMessage. rewrite Hin. cbn [negb fst snd].
  split; [reflexivity|]. split; [eexists; reflexivity|].
  intros out tReply c'. reflexivity.
Qed.

Lemma C5_witness :
  let env := ChatInterface.mkEnv "acct" "key" in
  let c := ChatInterface.on_ui (ChatInterface.setInput "hello")
             (ChatInterface.mount true) in
  Js.trim (ChatInterface.input (ChatInterface.ui c)) <> ""
  /\ ChatInterface.isLoading
       (ChatInterface.ui
          (fst (ChatInterface.sendMessage env None 1 2 c))) = true
  /\ (exists r,
        snd (ChatInterface.sendMessage env None 1 2 c)
        = [ChatInterface.Fetch r])
  /\ forall out tReply c',
       ChatInterface.isLoading
         (ChatInterface.ui (ChatInterface.settle out tReply c')) = false.
Proof.
  intros env c.
  assert (Hin : Js.trim (ChatInterface.input (ChatInterface.ui c)) <> "")
    by (vm_compute; discriminate).
  exact (conj Hin (C5_busy_flag_released env None 1 2 c Hin)).
Defined.

(** C8. Clearing the chat empties the transcript and leaves every other
    state cell, the refs, the detection component and the current
    emotion of the application as they were; it asks nothing of the
    browser. *)
Theorem C8_clear_chat_frame :
  forall env st,
    App.step env (App.Chat ChatInterface.ClearChat) st
    = (App.mkState
         (App.currentEmotion st)
         (App.face st)
         (ChatInterface.mkComponent
            (ChatInterface.mkState
               []
               (ChatInterface.input (ChatInterface.ui (App.chat st)))
               (ChatInterface.isLoading (ChatInterface.ui (App.chat st)))
               (ChatInterface.isListening (ChatInterface.ui (App.chat st)))
               (ChatInterface.speechSupported (ChatInterface.ui (App.chat st)))
               (ChatInterface.permissionError (ChatInterface.ui (App.chat st)))
               (ChatInterface.networkError (ChatInterface.ui (App.chat st))))
            (ChatInterface.rt (App.chat st))),
       []).
Proof. intros env st. reflexivity. Qed.

(** ** Completion of a request *)

Section Settlement.

Import ChatInterface Spec.

(** What a parsed 2xx body appends: the value of [data.result.response]
    when the path evaluates to a truthy value, the fallback otherwise. *)
Lemma settle_parsed_messages status data tReply c :
  ok status = true ->
  messages (ui (settle (Response status (Json data)) tReply c))
  = (messages (ui c)
     ++ [match result_response data with
         | Js.Normal v =>
             if Js.truthy v
             then mkMessage assistant v ("assistant-" ++ Js.show tReply)
             else mkMessage assistant (Js.Str fallback)
                            ("error-" ++ Js.show tReply)
         | Js.Throw _ =>
             mkMessage assistant (Js.Str fallback)
                       ("error-" ++ Js.show tReply)
         end])%list.
Proof.
  intro Hok. unfold settle, afterFetch, result_response.
  rewrite Hok. cbn [negb Js.bind].
  destruct (Js.get data "result") as [r|m]; cbn [Js.bind]; [|reflexivity].
  destruct (Js.truthy r) eqn:Hr.
  - destruct (Js.get r "response") as [v|m]; cbn [Js.bind]; [|reflexivity].
    destruct (Js.truthy v); reflexivity.
  - cbn [Js.bind]. rewrite Hr.
    destruct r; cbn in Hr; try discriminate; try reflexivity.
Qed.

Lemma settle_failed_messages out tReply c :
  failed out ->
  messages (ui (settle out tReply c))
  = (messages (ui c)
     ++ [mkMessage assistant (Js.Str fallback)
                   ("error-" ++ Js.show tReply)])%list.
Proof.
  destruct out as [m|status body]; cbn [failed]; [reflexivity|].
  destruct (ok status) eqn:Hok.
  - intros [H|H]; [discriminate|].
    destruct body as [m|data].
    + unfold settle, afterFetch. rewrite Hok. reflexivity.
    + rewrite (settle_parsed_messages _ _ _ _ Hok).
      destruct H as [H|[m H]]; rewrite H; reflexivity.
  - intros _. unfold settle, afterFetch. rewrite Hok. reflexivity.
Qed.

(** A normal completion of the [try] block appends one assistant
    message. *)
Lemma afterFetch_normal out tReply update :
  afterFetch out tReply = Js.Normal update ->
  exists v,
    update = setMessages (fun prev =>
               (prev ++ [mkMessage assistant v
                                   ("assistant-" ++ Js.show tReply)])%list).
Proof.
  unfold afterFetch.
  destruct out as [m|status [m|data]]; try discriminate;
    destruct (ok status); cbn [negb Js.bind]; try discriminate.
  destruct (Js.get data "result") as [r|m]; cbn [Js.bind]; [|discriminate].
  destruct (if Js.truthy r then Js.get r "response" else Js.Normal r)
    as [t|m]; cbn [Js.bind]; [|discriminate].
  destruct (Js.truthy t); [|discriminate].
  destruct (Js.get r "response") as [v|m]; cbn [Js.bind]; [|discriminate].
  intros [= <-]. exists v. reflexivity.
Qed.

End Settlement.

(** C3 (as the code has it). When a request completes with a 2xx status
    and a body whose [result.response] is a non-empty text, exactly one
    assistant message with that text is appended to the transcript; when
    the call throws, the status is not 2xx, the body does not parse or
    lacks [result.response], exactly one assistant message with the fixed
    fallback text is appended, whatever the error said. *)
Theorem C3_reply_or_fallback :
  forall out tReply c,
    (forall status data s,
        out = ChatInterface.Response status (ChatInterface.Json data) ->
        ChatInterface.ok status = true ->
        Spec.result_response data = Js.Normal (Js.Str s) ->
        s <> "" ->
        ChatInterface.messages
          (ChatInterface.ui (ChatInterface.settle out tReply c))
        = (ChatInterface.messages (ChatInterface.ui c)
           ++ [ChatInterface.mkMessage ChatInterface.assistant (Js.Str s)
                 ("assistant-" ++ Js.show tReply)])%list)
    /\ (Spec.failed out ->
        ChatInterface.messages
          (ChatInterface.ui (ChatInterface.settle out tReply c))
        = (ChatInterface.messages (ChatInterface.ui c)
           ++ [ChatInterface.mkMessage ChatInterface.assistant
                 (Js.Str "Sorry, I had trouble processing your request. Please try again.")
                 ("error-" ++ Js.show tReply)])%list).
Proof.
  intros out tReply c. split.
  - intros status data s -> Hok Hfield Hs.
    rewrite (settle_parsed_messages _ _ _ _ Hok), Hfield.
    apply truthy_string_true in Hs. cbn [Js.truthy]. rewrite Hs. reflexivity.
  - apply settle_failed_messages.
Qed.

Lemma C3_witness :
  let data := Js.Object [("result", Js.Object [("response", Js.Str "Hello")])] in
  let out := ChatInterface.Response 200 (ChatInterface.Json data) in
  let c := ChatInterface.mount true in
  ChatInterface.ok 200 = true
  /\ Spec.result_response data = Js.Normal (Js.Str "Hello")
  /\ "Hello" <> ""
  /\ ChatInterface.messages
       (ChatInterface.ui (ChatInterface.settle out 7 c))
     = (ChatInterface.messages (ChatInterface.ui c)
        ++ [ChatInterface.mkMessage ChatInterface.assistant (Js.Str "Hello")
              ("assistant-" ++ Js.show 7)])%list
  /\ (Spec.failed (ChatInterface.Response 503 (ChatInterface.Json data)) ->
      ChatInterface.messages
        (ChatInterface.ui
           (ChatInterface.settle
              (ChatInterface.Response 503 (ChatInterface.Json data)) 7 c))
      = (ChatInterface.messages (ChatInterface.ui c)
         ++ [ChatInterface.mkMessage ChatInterface.assistant
               (Js.Str "Sorry, I had trouble processing your request. Please try again.")
               ("error-" ++ Js.show 7)])%list).
Proof.
  intros data out c.
  assert (Hs : "Hello" <> "") by discriminate.
  exact (conj eq_refl (conj eq_refl (conj Hs (conj
    (proj1 (C3_reply_or_fallback out 7 c) 200%N data "Hello"
           eq_refl eq_refl eq_refl Hs)
    (proj2 (C3_reply_or_fallback
              (ChatInterface.Response 503 (ChatInterface.Json data)) 7 c)))))).
Defined.

(** C3 as stated fails on an empty text: the body
    [{"result": {"response": ""}}] with status 200 contains a
    [result.response] text field, and the message appended carries the
    fallback text, not that field. *)
Lemma C3_empty_text_refuted :
  let data := Js.Object [("result", Js.Object [("response", Js.Str "")])] in
  let out := ChatInterface.Response 200 (ChatInterface.Json data) in
  let c := ChatInterface.mount true in
  ChatInterface.ok 200 = true
  /\ Spec.result_response data = Js.Normal (Js.Str "")
  /\ map ChatInterface.content
       (ChatInterface.messages
          (ChatInterface.ui (ChatInterface.settle out 7 c)))
     = [Js.Str "Sorry, I had trouble processing your request. Please try again."]
  /\ map ChatInterface.content
       (ChatInterface.messages
          (ChatInterface.ui (ChatInterface.settle out 7 c)))
     <> [Js.Str ""].
Proof.
  repeat split; try reflexivity.
  vm_compute. discriminate.
Qed.

(** C10. A 2xx response whose [result.response] is the empty string is
    handled as a failure: the message appended is the fixed fallback, not
    an assistant message with empty content, the shape check being a
    truthiness test. *)
Theorem C10_empty_response_is_failure :
  forall status data tReply c,
    ChatInterface.ok status = true ->
    Spec.result_response data = Js.Normal (Js.Str "") ->
    ChatInterface.messages
      (ChatInterface.ui
         (ChatInterface.settle
            (ChatInterface.Response status (ChatInterface.Json data))
            tReply c))
    = (ChatInterface.messages (ChatInterface.ui c)
       ++ [ChatInterface.mkMessage ChatInterface.assistant
             (Js.Str "Sorry, I had trouble processing your request. Please try again.")
             ("error-" ++ Js.show tReply)])%list.
Proof.
  intros status data tReply c Hok Hfield.
  rewrite (settle_parsed_messages _ _ _ _ Hok), Hfield. reflexivity.
Qed.

Lemma C10_witness :
  let data := Js.Object [("result", Js.Object [("response", Js.Str "")])] in
  let c := ChatInterface.mount false in
  ChatInterface.ok 200 = true
  /\ Spec.result_response data = Js.Normal (Js.Str "")
  /\ ChatInterface.messages
       (ChatInterface.ui
          (ChatInterface.settle
             (ChatInterface.Response 200 (ChatInterface.Json data)) 9 c))
     = (ChatInterface.messages (ChatInterface.ui c)
        ++ [ChatInterface.mkMessage ChatInterface.assistant
              (Js.Str "Sorry, I had trouble processing your request. Please try again.")
              ("error-" ++ Js.show 9)])%list.
Proof.
  intros data c.
  exact (conj eq_refl (conj eq_refl
    (C10_empty_response_is_failure 200%N data 9 c eq_refl eq_refl))).
Defined.

(** ** The stored transcript *)

Section Transcript.

Import ChatInterface Spec.

Variable env : ImportMetaEnv.

Ltac split_branches :=
  repeat match goal with
         | |- context [if ?b then _ else _] => destruct b
         | |- context [match ?x with _ => _ end] => destruct x
         end.

Lemma onerror_messages il error c :
  messages (ui (onerror il error c)) = messages (ui c).
Proof.
  unfold onerror.
  destruct (error =? "not-allowed"), (error =? "no-speech"),
    (error =? "network"); cbn [negb];
    try reflexivity;
    destruct c as [u [ref [i|] pending next started calls]]; reflexivity.
Qed.

Lemma fire_messages i c : messages (ui (fire i c)) = messages (ui c).
Proof. unfold fire, runTask, start. split_branches; reflexivity. Qed.

Lemma toggleListening_messages c :
  messages (ui (fst (toggleListening c))) = messages (ui c).
Proof. unfold toggleListening. split_branches; reflexivity. Qed.

Lemma onend_messages c : messages (ui (onend c)) = messages (ui c).
Proof. unfold onend. split_branches; reflexivity. Qed.

(** What an event does to the transcript: nothing, a clear, or one
    appended message whose role is not [system]. *)
Lemma dispatch_messages emo ev c :
  let after := messages (ui (fst (dispatch env emo ev c))) in
  after = messages (ui c)
  \/ after = []
  \/ exists m, role m <> system /\ after = (messages (ui c) ++ [m])%list.
Proof.
  destruct ev; cbn [dispatch fst].
  - left. reflexivity.
  - unfold sendMessage.
    destruct (negb (Js.truthy_string (Js.trim (input (ui c)))));
      [left; reflexivity|].
    right. right. eexists. split; [|cbn [fst]].
    2: { destruct (isListening (ui c) && recognitionRef (rt c)); reflexivity. }
    cbn. discriminate.
  - right. right. unfold settle.
    destruct (afterFetch out tReply) as [update|m] eqn:E.
    + apply afterFetch_normal in E. destruct E as [v ->].
      eexists. split; [|reflexivity]. cbn. discriminate.
    + eexists. split; [|reflexivity]. cbn. discriminate.
  - right. left. reflexivity.
  - left. apply toggleListening_messages.
  - left. reflexivity.
  - left. reflexivity.
  - left. apply fire_messages.
  - left. reflexivity.
  - left. rewrite onerror_messages. reflexivity.
  - left. rewrite onend_messages. reflexivity.
Qed.

Lemma step_no_system ev st :
  no_system (messages (ui (App.chat st))) ->
  no_system (messages (ui (App.chat (fst (App.step env ev st))))).
Proof.
  intro H. destruct ev as [active|streaming f|ev]; cbn [App.step fst].
  - exact H.
  - unfold App.detectionCycle, App.notifyParent.
    cbn [App.face App.chat].
    destruct (Js.same _ _); [exact H|].
    destruct (FaceDetection.detectedEmotion _) as [e|]; [|exact H].
    destruct (Js.truthy_string e); exact H.
  - pose proof (dispatch_messages (App.currentEmotion st) ev (App.chat st))
      as D.
    destruct (dispatch env (App.currentEmotion st) ev (App.chat st))
      as [c out].
    cbn [fst App.chat] in *. unfold no_system in *.
    destruct D as [->|[->|(m & Hm & ->)]].
    + exact H.
    + constructor.
    + apply Forall_app. split; [exact H|]. constructor; [exact Hm|constructor].
Qed.

Lemma run_no_system evs :
  forall st,
    no_system (messages (ui (App.chat st))) ->
    no_system (messages (ui (App.chat (App.run env evs st)))).
Proof.
  unfold App.run.
  induction evs as [|ev evs IH]; intros st H; cbn [fold_left].
  - exact H.
  - apply IH, step_no_system, H.
Qed.

End Transcript.

(** C6. In every state the application can reach, through any sequence
    of submissions, completed or failed requests, clears and the other
    events of the interface, no stored message has the system role: the
    system message of a request is never added to the transcript. *)
Theorem C6_transcript_has_no_system_message :
  forall env st,
    App.reachable env st ->
    Forall (fun m => ChatInterface.role m <> ChatInterface.system)
           (ChatInterface.messages (ChatInterface.ui (App.chat st))).
Proof.
  intros env st (has & evs & ->).
  apply run_no_system. constructor.
Qed.

Lemma C6_witness :
  let env := ChatInterface.mkEnv "acct" "key" in
  let st :=
    App.run env
      [App.Chat (ChatInterface.Change "hi");
       App.Chat (ChatInterface.Submit 1 2);
       App.Chat (ChatInterface.Settled (ChatInterface.FetchRejects "offline") 3);
       App.Chat ChatInterface.ClearChat;
       App.Chat (ChatInterface.Change "again");
       App.Chat (ChatInterface.Submit 4 5)]
      (App.init false) in
  App.reachable env st
  /\ Forall (fun m => ChatInterface.role m <> ChatInterface.system)
            (ChatInterface.messages (ChatInterface.ui (App.chat st))).
Proof.
  intros env st.
  assert (Hreach : App.reachable env st)
    by (exists false; eexists; reflexivity).
  exact (conj Hreach (C6_transcript_has_no_system_message env st Hreach)).
Defined.

(** ** The dictation controller *)

(** C4 (what the code does). In every state, the [onerror] handler
    installed at mount answers a [network] error by setting the
    reconnecting flag, leaving [isListening] as it is and arming one
    timer of 2000 ms; the callback of that timer tests the [isListening]
    of the closure created at mount, which is [false], so running it
    changes nothing: it calls neither [stop()] nor [start()] and arms no
    further timer.  On the scenario (dictation switched on
    from a fresh mount, permission granted, the 100 ms timer starts the
    recogniser, then a [network] error, then the retry timer fires) the
    calls made on the recogniser are still the single [start()] of the
    toggle and the reconnecting flag stays set.  The [end] event that the
    recogniser reports after an error, handled by the [onend] of the
    render that followed the error, switches the controller to idle. *)
Theorem C4_network_error_retry_never_restarts :
  let env := ChatInterface.mkEnv "acct" "key" in
  let listening :=
    App.chat
      (App.run env
         [App.Chat ChatInterface.ToggleListening;
          App.Chat ChatInterface.MicGranted;
          App.Chat (ChatInterface.Timeout 1)]
         (App.init true)) in
  let errored :=
    fst (ChatInterface.dispatch env None
           (ChatInterface.RecogError "network") listening) in
  let fired :=
    fst (ChatInterface.dispatch env None (ChatInterface.Timeout 2) errored) in
  let ended :=
    fst (ChatInterface.dispatch env None ChatInterface.RecogEnd errored) in
  (forall c,
      let c' :=
        ChatInterface.onerror ChatInterface.onerror_isListening "network" c in
      ChatInterface.isListening (ChatInterface.ui c')
      = ChatInterface.isListening (ChatInterface.ui c)
      /\ ChatInterface.networkError (ChatInterface.ui c') = true
      /\ exists pending,
          ChatInterface.timers (ChatInterface.rt c')
          = (pending
             ++ [ChatInterface.mkTimer
                   (ChatInterface.nextTimerId (ChatInterface.rt c)) 2000
                   (ChatInterface.RetryRestart false)])%list)
  /\ (forall c,
        ChatInterface.runTask (ChatInterface.RetryRestart false) c = c)
  /\ (ChatInterface.isListening (ChatInterface.ui listening) = true
      /\ ChatInterface.recognizerCalls (ChatInterface.rt listening)
         = [ChatInterface.Start])
  /\ (ChatInterface.isListening (ChatInterface.ui errored) = true
      /\ ChatInterface.networkError (ChatInterface.ui errored) = true
      /\ ChatInterface.timers (ChatInterface.rt errored)
         = [ChatInterface.mkTimer 2 2000 (ChatInterface.RetryRestart false)])
  /\ (ChatInterface.recognizerCalls (ChatInterface.rt fired)
      = [ChatInterface.Start]
      /\ ChatInterface.timers (ChatInterface.rt fired) = []
      /\ ChatInterface.networkError (ChatInterface.ui fired) = true)
  /\ ChatInterface.isListening (ChatInterface.ui ended) = false.
Proof.
  cbv zeta. split; [|repeat split; reflexivity].
  intros [u [ref [i|] pending next started calls]];
    (split; [reflexivity|]); (split; [reflexivity|]);
    eexists; reflexivity.
Qed.

(** * Further properties of the code *)

(** ** Reachable states *)

Section Reachable.

Import ChatInterface.

Variable env : ImportMetaEnv.

Lemma run_preserves (P : App.State -> Prop) :
  (forall ev st, P st -> P (fst (App.step env ev st))) ->
  forall evs st, P st -> P (App.run env evs st).
Proof.
  intros Hstep. unfold App.run.
  induction evs as [|ev evs IH]; intros st H; cbn [fold_left]; auto.
Qed.

Lemma reachable_preserves (P : App.State -> Prop) :
  (forall has, P (App.init has)) ->
  (forall ev st, P st -> P (fst (App.step env ev st))) ->
  forall st, App.reachable env st -> P st.
Proof.
  intros Hinit Hstep st (has & evs & ->).
  apply run_preserves; auto.
Qed.

Lemma detectionCycle_chat streaming f st :
  App.chat (App.detectionCycle streaming f st) = App.chat st.
Proof.
  unfold App.detectionCycle, App.notifyParent. cbn [App.face App.chat].
  destruct (Js.same _ _); [reflexivity|].
  destruct (FaceDetection.detectedEmotion _) as [e|]; [|reflexivity].
  destruct (Js.truthy_string e); reflexivity.
Qed.

Lemma step_chat ev st :
  App.chat (fst (App.step env ev st))
  = match ev with
    | App.Chat ev' =>
        fst (dispatch env (App.currentEmotion st) ev' (App.chat st))
    | _ => App.chat st
    end.
Proof.
  destruct ev as [active|streaming f|ev']; cbn [App.step fst].
  - reflexivity.
  - apply detectionCycle_chat.
  - destruct (dispatch env (App.currentEmotion st) ev' (App.chat st)).
    reflexivity.
Qed.

(** An invariant of the chat component holds in every reachable state. *)
Lemma reachable_chat_preserves (P : Component -> Prop) :
  (forall has, P (mount has)) ->
  (forall emo ev c, P c -> P (fst (dispatch env emo ev c))) ->
  forall st, App.reachable env st -> P (App.chat st).
Proof.
  intros Hinit Hstep.
  apply (reachable_preserves (fun st => P (App.chat st))).
  - intro has. apply Hinit.
  - intros ev st H. rewrite step_chat.
    destruct ev; auto.
Qed.

Lemma same_true (a b : option string) : Js.same a b = true -> a = b.
Proof.
  destruct a as [x|], b as [y|]; cbn; try discriminate; try reflexivity.
  intro H. apply String.eqb_eq in H. congruence.
Qed.

Lemma step_emotion_in_step ev st :
  Inv.emotion_in_step st -> Inv.emotion_in_step (fst (App.step env ev st)).
Proof.
  unfold Inv.emotion_in_step. intro H.
  destruct ev as [active|streaming f|ev']; cbn [App.step fst].
  - exact H.
  - unfold App.detectionCycle, App.notifyParent.
    cbn [App.face App.currentEmotion].
    destruct (Js.same _ _) eqn:Es.
    + apply same_true in Es. cbn [App.face App.currentEmotion].
      rewrite <- Es. exact H.
    + destruct (FaceDetection.detectedEmotion
                  (FaceDetection.detectFaces streaming f (App.face st)))
        as [e|] eqn:En; cbn [App.face App.currentEmotion].
      * destruct (Js.truthy_string e) eqn:Et;
          cbn [App.handleEmotionDetected App.face App.currentEmotion];
          rewrite En; intros e' [= <-]; congruence.
      * rewrite En. discriminate.
  - destruct (dispatch env (App.currentEmotion st) ev' (App.chat st)).
    exact H.
Qed.

Lemma reachable_emotion_in_step st :
  App.reachable env st -> Inv.emotion_in_step st.
Proof.
  apply reachable_preserves.
  - intros has e. cbn. discriminate.
  - apply step_emotion_in_step.
Qed.

End Reachable.

(** X1. In every reachable state, a detection cycle whose closure holds
    an active stream, whose canvas has a context and whose first
    detection has a dominant score above 0.5 with a non-empty label makes
    that label both the detected and the current emotion, whatever the
    stream flag of the state is at that moment. *)
Theorem X1_confident_reading_promoted :
  forall env st es dom others,
    App.reachable env st ->
    FaceDetection.dominantExpression es = Some dom ->
    (1 # 2 < snd dom)%Q ->
    fst dom <> "" ->
    let st' :=
      App.detectionCycle true
        (FaceDetection.Detected true (FaceDetection.mkDetection es :: others))
        st in
    App.currentEmotion st' = Some (fst dom)
    /\ FaceDetection.detectedEmotion (App.face st') = Some (fst dom).
Proof.
  intros env st es dom others Hreach Hdom Hhigh Hlabel.
  apply gt_true in Hhigh. apply truthy_string_true in Hlabel.
  pose proof (reachable_emotion_in_step env st Hreach) as Hinv.
  unfold App.detectionCycle, App.notifyParent, FaceDetection.detectFaces,
    FaceDetection.promote.
  cbn [negb FaceDetection.expressions App.face App.currentEmotion].
  rewrite Hdom, Hhigh.
  cbn [FaceDetection.setDetectedEmotion FaceDetection.detectedEmotion].
  destruct (Js.same _ _) eqn:Es.
  - apply same_true in Es. cbn [App.currentEmotion App.face
      FaceDetection.detectedEmotion].
    split; [|reflexivity]. apply Hinv; auto.
  - rewrite Hlabel. split; reflexivity.
Qed.

Lemma X1_witness :
  let env := ChatInterface.mkEnv "acct" "key" in
  let st := App.run env [App.Stream true; App.Stream false] (App.init true) in
  let es := [("neutral", 1 # 10); ("happy", 7 # 10); ("sad", 1 # 5)]%Q in
  App.reachable env st
  /\ FaceDetection.dominantExpression es = Some ("happy", (7 # 10)%Q)
  /\ (1 # 2 < snd ("happy", (7 # 10)%Q))%Q
  /\ fst ("happy", (7 # 10)%Q) <> ""
  /\ App.currentEmotion
       (App.detectionCycle true
          (FaceDetection.Detected true [FaceDetection.mkDetection es]) st)
     = Some "happy".
Proof.
  intros env st es.
  assert (Hreach : App.reachable env st)
    by (exists true; eexists; reflexivity).
  assert (Hhigh : (1 # 2 < snd ("happy", (7 # 10)%Q))%Q) by reflexivity.
  assert (Hlabel : fst ("happy", (7 # 10)%Q) <> "") by discriminate.
  exact (conj Hreach (conj eq_refl (conj Hhigh (conj Hlabel
    (proj1 (X1_confident_reading_promoted env st es _ [] Hreach eq_refl
              Hhigh Hlabel)))))).
Defined.

(** X2. Once the application holds a current emotion, no sequence of
    events clears it (stopping the stream and clearing the chat
    included); and a sequence without detection cycle leaves it exactly
    as it is. *)
Theorem X2_current_emotion_never_cleared :
  forall env evs st e,
    App.currentEmotion st = Some e ->
    (exists e', App.currentEmotion (App.run env evs st) = Some e')
    /\ (Forall (fun ev => match ev with
                          | App.Cycle _ _ => False
                          | _ => True
                          end) evs ->
        App.currentEmotion (App.run env evs st) = Some e).
Proof.
  intros env evs. unfold App.run.
  induction evs as [|ev evs IH]; intros st e H; cbn [fold_left].
  - split; [exists e; exact H|intros _; exact H].
  - assert (Hstep :
      (exists e1, App.currentEmotion (fst (App.step env ev st)) = Some e1)
      /\ (match ev with App.Cycle _ _ => False | _ => True end ->
          App.currentEmotion (fst (App.step env ev st)) = Some e)).
    { destruct ev as [active|streaming f|ev']; cbn [App.step fst].
      - split; [exists e; exact H|intros _; exact H].
      - split; [|intros []].
        unfold App.detectionCycle, App.notifyParent.
        cbn [App.face App.currentEmotion].
        destruct (Js.same _ _); [exists e; exact H|].
        destruct (FaceDetection.detectedEmotion _) as [d|];
          [|exists e; exact H].
        destruct (Js.truthy_string d); [exists d; reflexivity|exists e; exact H].
      - destruct (ChatInterface.dispatch env (App.currentEmotion st) ev'
                    (App.chat st)).
        split; [exists e; exact H|intros _; exact H]. }
    destruct Hstep as [[e1 H1] Hkeep]. split.
    + exact (proj1 (IH _ e1 H1)).
    + intro Hall. inversion Hall as [|? ? Hev Hrest]; subst.
      exact (proj2 (IH _ e (Hkeep Hev)) Hrest).
Qed.

Lemma X2_witness :
  let env := ChatInterface.mkEnv "acct" "key" in
  let st := App.handleEmotionDetected "sad" (App.init true) in
  let evs := [App.Stream false; App.Chat ChatInterface.ClearChat;
              App.Chat (ChatInterface.Change "hello")] in
  App.currentEmotion st = Some "sad"
  /\ (exists e', App.currentEmotion (App.run env evs st) = Some e')
  /\ App.currentEmotion (App.run env evs st) = Some "sad".
Proof.
  intros env st evs.
  assert (H : App.currentEmotion st = Some "sad") by reflexivity.
  assert (Hall : Forall (fun ev => match ev with
                                   | App.Cycle _ _ => False
                                   | _ => True
                                   end) evs)
    by (repeat constructor).
  exact (conj H (conj
    (proj1 (X2_current_emotion_never_cleared env evs st "sad" H))
    (proj2 (X2_current_emotion_never_cleared env evs st "sad" H) Hall))).
Defined.

(** X3. A detection cycle with no usable reading changes nothing in the
    application: a closure holding an inactive stream, a call that
    raises, a canvas without context, no detected face, or a first
    detection with an empty score set (whose [reduce] raises inside the
    [try]). *)
Theorem X3_cycle_without_reading_is_noop :
  forall st streaming has_ctx f ds others,
    App.detectionCycle false f st = st
    /\ App.detectionCycle streaming FaceDetection.DetectorThrows st = st
    /\ App.detectionCycle streaming (FaceDetection.Detected false ds) st = st
    /\ App.detectionCycle streaming (FaceDetection.Detected has_ctx []) st = st
    /\ App.detectionCycle streaming
         (FaceDetection.Detected has_ctx
            (FaceDetection.mkDetection [] :: others)) st = st.
Proof.
  intros [emo fc ch] streaming has_ctx f ds others.
  unfold App.detectionCycle, App.notifyParent, FaceDetection.detectFaces.
  repeat split; destruct streaming, has_ctx; cbn; rewrite same_refl;
    reflexivity.
Qed.

(** ** The transcript and the request *)

Section StoredMessages.

Import ChatInterface.

Variable env : ImportMetaEnv.

Lemma filter_no_system (ms : list Message) :
  Spec.no_system ms ->
  filter (fun msg => negb (Role_eqb (role msg) system)) ms = ms.
Proof.
  unfold Spec.no_system.
  induction 1 as [|m ms Hm _ IH]; cbn [filter]; [reflexivity|].
  destruct (role m); [congruence| |]; cbn; rewrite IH; reflexivity.
Qed.

Lemma reachable_no_system st :
  App.reachable env st -> Spec.no_system (messages (ui (App.chat st))).
Proof.
  intros (has & evs & ->). apply run_no_system. constructor.
Qed.

(** A normal completion of the [try] block appends a truthy content. *)
Lemma afterFetch_normal_truthy out tReply update :
  afterFetch out tReply = Js.Normal update ->
  exists v,
    Js.truthy v = true
    /\ update = setMessages (fun prev =>
                  (prev ++ [mkMessage assistant v
                                      ("assistant-" ++ Js.show tReply)])%list).
Proof.
  unfold afterFetch.
  destruct out as [m|status [m|data]]; try discriminate;
    destruct (ok status); cbn [negb Js.bind]; try discriminate.
  destruct (Js.get data "result") as [r|m]; cbn [Js.bind]; [|discriminate].
  destruct (Js.truthy r) eqn:Hr.
  - destruct (Js.get r "response") as [v|m]; cbn [Js.bind]; [|discriminate].
    destruct (Js.truthy v) eqn:Hv; [|discriminate].
    intros [= <-]. exists v. split; [exact Hv|reflexivity].
  - cbn [Js.bind]. rewrite Hr. discriminate.
Qed.

(** Every failure leaves the [try] block by an exception. *)
Lemma afterFetch_failed out tReply :
  Spec.failed out -> exists m, afterFetch out tReply = Js.Throw m.
Proof.
  destruct out as [m|status body]; cbn [Spec.failed]; [eexists; reflexivity|].
  unfold afterFetch.
  destruct (ok status); cbn [negb]; [|intros _; eexists; reflexivity].
  intros [H|H]; [discriminate|].
  destruct body as [m|data]; cbn [Js.bind]; [eexists; reflexivity|].
  unfold Spec.lacks_result_response, Spec.result_response in H.
  destruct (Js.get data "result") as [r|m]; cbn [Js.bind] in *;
    [|eexists; reflexivity].
  destruct (Js.truthy r) eqn:Hr.
  - destruct H as [H|[m H]]; rewrite H; cbn; eexists; reflexivity.
  - cbn [Js.bind]. rewrite Hr. eexists; reflexivity.
Qed.

(** What an event does to the transcript, with the shape of what it
    appends. *)
Lemma dispatch_appends_shape emo ev c :
  let after := messages (ui (fst (dispatch env emo ev c))) in
  after = messages (ui c)
  \/ after = []
  \/ exists m, Inv.stored_shape m /\ after = (messages (ui c) ++ [m])%list.
Proof.
  destruct ev; cbn [dispatch fst].
  - left. reflexivity.
  - unfold sendMessage.
    destruct (Js.truthy_string (Js.trim (input (ui c)))) eqn:Hin;
      cbn [negb]; [|left; reflexivity].
    right. right. eexists. split; [|cbn [fst]].
    2: { destruct (isListening (ui c) && recognitionRef (rt c)); reflexivity. }
    left. split; [reflexivity|].
    exists (input (ui c)), tUser. repeat split.
    apply truthy_string_true. exact Hin.
  - right. right. unfold settle.
    destruct (afterFetch out tReply) as [update|m] eqn:E.
    + apply afterFetch_normal_truthy in E. destruct E as (v & Hv & ->).
      eexists. split; [|reflexivity].
      right. left. repeat split; [exact Hv|]. exists tReply. reflexivity.
    + eexists. split; [|reflexivity].
      right. right. repeat split. exists tReply. reflexivity.
  - right. left. reflexivity.
  - left. apply toggleListening_messages.
  - left. reflexivity.
  - left. reflexivity.
  - left. apply fire_messages.
  - left. reflexivity.
  - left. rewrite onerror_messages. reflexivity.
  - left. rewrite onend_messages. reflexivity.
Qed.

End StoredMessages.

(** X4. In every reachable state the history filter removes nothing: a
    submission that passes the guard sends one system entry, then the
    whole stored transcript, then the new user entry, that is two entries
    more than the transcript holds, and none but the first has the system
    role. *)
Theorem X4_request_carries_whole_transcript :
  forall env st tUser tSystem,
    App.reachable env st ->
    Js.trim (ChatInterface.input (ChatInterface.ui (App.chat st))) <> "" ->
    exists r prompt,
      snd (App.step env (App.Chat (ChatInterface.Submit tUser tSystem)) st)
      = [ChatInterface.Fetch r]
      /\ ChatInterface.body r
         = ((ChatInterface.system, Js.Str prompt)
            :: map ChatInterface.wire
                 (ChatInterface.messages (ChatInterface.ui (App.chat st)))
            ++ [(ChatInterface.user,
                 Js.Str (ChatInterface.input
                           (ChatInterface.ui (App.chat st))))])%list
      /\ List.length (ChatInterface.body r)
         = S (S (List.length (ChatInterface.messages
                           (ChatInterface.ui (App.chat st)))))
      /\ Forall (fun entry => fst entry <> ChatInterface.system)
                (tl (ChatInterface.body r)).
Proof.
  intros env st tUser tSystem Hreach Hin.
  apply truthy_string_true in Hin.
  pose proof (reachable_no_system env st Hreach) as Hns.
  cbn [App.step ChatInterface.dispatch]. unfold ChatInterface.sendMessage.
  rewrite Hin. cbn [negb snd].
  eexists. eexists. split; [reflexivity|].
  cbn [ChatInterface.body ChatInterface.wire ChatInterface.role
       ChatInterface.content app].
  rewrite (filter_no_system _ Hns).
  split; [reflexivity|]. split.
  - cbn [List.length]. rewrite length_app, length_map. cbn [List.length]. lia.
  - cbn [tl]. apply Forall_app. split.
    + apply Forall_map. unfold Spec.no_system in Hns.
      eapply Forall_impl; [|exact Hns]. intros m Hm. exact Hm.
    + constructor; [cbn; discriminate|constructor].
Qed.

Lemma X4_witness :
  let env := ChatInterface.mkEnv "acct" "key" in
  let st :=
    App.run env
      [App.Chat (ChatInterface.Change "hi");
       App.Chat (ChatInterface.Submit 1 2);
       App.Chat (ChatInterface.Settled (ChatInterface.FetchRejects "offline") 3);
       App.Chat (ChatInterface.Change "still there?")]
      (App.init true) in
  App.reachable env st
  /\ Js.trim (ChatInterface.input (ChatInterface.ui (App.chat st))) <> ""
  /\ exists r prompt,
      snd (App.step env (App.Chat (ChatInterface.Submit 4 5)) st)
      = [ChatInterface.Fetch r]
      /\ ChatInterface.body r
         = ((ChatInterface.system, Js.Str prompt)
            :: map ChatInterface.wire
                 (ChatInterface.messages (ChatInterface.ui (App.chat st)))
            ++ [(ChatInterface.user,
                 Js.Str (ChatInterface.input
                           (ChatInterface.ui (App.chat st))))])%list
      /\ List.length (ChatInterface.body r)
         = S (S (List.length (ChatInterface.messages
                           (ChatInterface.ui (App.chat st)))))
      /\ Forall (fun entry => fst entry <> ChatInterface.system)
                (tl (ChatInterface.body r)).
Proof.
  intros env st.
  assert (Hreach : App.reachable env st)
    by (exists true; eexists; reflexivity).
  assert (Hin : Js.trim (ChatInterface.input
                           (ChatInterface.ui (App.chat st))) <> "")
    by (vm_compute; discriminate).
  exact (conj Hreach (conj Hin
    (X4_request_carries_whole_transcript env st 4 5 Hreach Hin))).
Defined.

(** X5. In every reachable state each stored message has one of three
    shapes: a user message whose content is a text that is not blank,
    with a [user-] id; an assistant message with truthy content and an
    [assistant-] id; or an assistant message carrying the fallback text
    with an [error-] id. *)
Theorem X5_stored_messages_have_three_shapes :
  forall env st,
    App.reachable env st ->
    Forall Inv.stored_shape
           (ChatInterface.messages (ChatInterface.ui (App.chat st))).
Proof.
  intro env.
  apply (reachable_chat_preserves env
           (fun c => Forall Inv.stored_shape
                       (ChatInterface.messages (ChatInterface.ui c)))).
  - intro has. constructor.
  - intros emo ev c H.
    destruct (dispatch_appends_shape env emo ev c) as [E|[E|(m & Hm & E)]];
      rewrite E.
    + exact H.
    + constructor.
    + apply Forall_app. split; [exact H|]. constructor; [exact Hm|constructor].
Qed.

Lemma X5_witness :
  let env := ChatInterface.mkEnv "acct" "key" in
  let st :=
    App.run env
      [App.Chat (ChatInterface.Change "hi");
       App.Chat (ChatInterface.Submit 1 2);
       App.Chat (ChatInterface.Settled
                   (ChatInterface.Response 200
                      (ChatInterface.Json
                         (Js.Object
                            [("result",
                              Js.Object [("response", Js.Str "Hello")])])))
                   3);
       App.Chat (ChatInterface.Change "bye");
       App.Chat (ChatInterface.Submit 4 5);
       App.Chat (ChatInterface.Settled (ChatInterface.Response 500
                   (ChatInterface.JsonRejects "Unexpected token")) 6)]
      (App.init true) in
  App.reachable env st
  /\ Forall Inv.stored_shape
            (ChatInterface.messages (ChatInterface.ui (App.chat st))).
Proof.
  intros env st.
  assert (Hreach : App.reachable env st)
    by (exists true; eexists; reflexivity).
  exact (conj Hreach (X5_stored_messages_have_three_shapes env st Hreach)).
Defined.

(** ** Settlement of a request *)

(** X6. Failures are indistinguishable in the state: whichever way two
    requests fail (a rejected call with any error text, any status
    outside 2xx, a body that does not parse or lacks [result.response]),
    settling either in the same state at the same instant gives the same
    component state. *)
Theorem X6_failures_are_indistinguishable :
  forall out1 out2 tReply c,
    Spec.failed out1 ->
    Spec.failed out2 ->
    ChatInterface.settle out1 tReply c = ChatInterface.settle out2 tReply c.
Proof.
  intros out1 out2 tReply c H1 H2.
  destruct (afterFetch_failed out1 tReply H1) as [m1 E1].
  destruct (afterFetch_failed out2 tReply H2) as [m2 E2].
  unfold ChatInterface.settle. rewrite E1, E2. reflexivity.
Qed.

Lemma X6_witness :
  let out1 := ChatInterface.FetchRejects "TypeError: Failed to fetch" in
  let out2 := ChatInterface.Response 429
                (ChatInterface.Json (Js.Object [("errors", Js.Array [])])) in
  let c := ChatInterface.mount true in
  Spec.failed out1
  /\ Spec.failed out2
  /\ ChatInterface.settle out1 3 c = ChatInterface.settle out2 3 c.
Proof.
  intros out1 out2 c.
  assert (H1 : Spec.failed out1) by exact I.
  assert (H2 : Spec.failed out2) by (left; reflexivity).
  exact (conj H1 (conj H2
    (X6_failures_are_indistinguishable out1 out2 3 c H1 H2))).
Defined.

(** X7. For a 2xx response whose body has a value at [result.response],
    the type of the value does not matter, its truthiness does: a truthy
    value (a non-empty text, but also a non-zero number, [true], an
    array or an object) becomes the content of the appended assistant
    message as it is, and a falsy one ([null], [false], zero, the empty
    text) gives the fallback message. *)
Theorem X7_reply_content_follows_truthiness :
  forall status data v tReply c,
    ChatInterface.ok status = true ->
    Spec.result_response data = Js.Normal v ->
    ChatInterface.messages
      (ChatInterface.ui
         (ChatInterface.settle
            (ChatInterface.Response status (ChatInterface.Json data))
            tReply c))
    = (ChatInterface.messages (ChatInterface.ui c)
       ++ [if Js.truthy v
           then ChatInterface.mkMessage ChatInterface.assistant v
                  ("assistant-" ++ Js.show tReply)
           else ChatInterface.mkMessage ChatInterface.assistant
                  (Js.Str "Sorry, I had trouble processing your request. Please try again.")
                  ("error-" ++ Js.show tReply)])%list.
Proof.
  intros status data v tReply c Hok Hfield.
  rewrite (settle_parsed_messages _ _ _ _ Hok), Hfield. reflexivity.
Qed.

Lemma X7_witness :
  let data := Js.Object [("result", Js.Object [("response", Js.Null)])] in
  let c := ChatInterface.mount true in
  ChatInterface.ok 204 = true
  /\ Spec.result_response data = Js.Normal Js.Null
  /\ ChatInterface.messages
       (ChatInterface.ui
          (ChatInterface.settle
             (ChatInterface.Response 204 (ChatInterface.Json data)) 5 c))
     = [ChatInterface.mkMessage ChatInterface.assistant
          (Js.Str "Sorry, I had trouble processing your request. Please try again.")
          "error-5"].
Proof.
  intros data c.
  exact (conj eq_refl (conj eq_refl
    (X7_reply_content_follows_truthiness 204%N data Js.Null 5 c
       eq_refl eq_refl))).
Defined.

(** X8. Whatever the outcome of the request, settling it appends exactly
    one message, with the assistant role, clears the busy flag and
    touches nothing else: the input, the dictation flags, the error
    banner, the refs, the timers and the recogniser are as before. *)
Theorem X8_settle_appends_one_assistant_message :
  forall out tReply c,
    exists m,
      ChatInterface.role m = ChatInterface.assistant
      /\ ChatInterface.settle out tReply c
         = ChatInterface.mkComponent
             (ChatInterface.mkState
                (ChatInterface.messages (ChatInterface.ui c) ++ [m])%list
                (ChatInterface.input (ChatInterface.ui c))
                false
                (ChatInterface.isListening (ChatInterface.ui c))
                (ChatInterface.speechSupported (ChatInterface.ui c))
                (ChatInterface.permissionError (ChatInterface.ui c))
                (ChatInterface.networkError (ChatInterface.ui c)))
             (ChatInterface.rt c).
Proof.
  intros out tReply c. unfold ChatInterface.settle.
  destruct (ChatInterface.afterFetch out tReply) as [update|m] eqn:E.
  - apply afterFetch_normal in E. destruct E as [v ->].
    eexists. split; [|reflexivity]. reflexivity.
  - eexists. split; [|reflexivity]. reflexivity.
Qed.

(** ** The busy flag *)

Section BusyFlag.

Import ChatInterface.

Lemma onerror_isLoading il error c :
  isLoading (ui (onerror il error c)) = isLoading (ui c).
Proof.
  unfold onerror.
  destruct (error =? "not-allowed"), (error =? "no-speech"),
    (error =? "network"); cbn [negb];
    try reflexivity;
    destruct c as [u [ref [i|] pending next started calls]]; reflexivity.
Qed.

Lemma fire_isLoading i c : isLoading (ui (fire i c)) = isLoading (ui c).
Proof.
  unfold fire, runTask, start.
  repeat match goal with
         | |- context [if ?b then _ else _] => destruct b
         | |- context [match ?x with _ => _ end] => destruct x
         end; reflexivity.
Qed.

End BusyFlag.

(** X9. The busy flag is written by the chat dispatcher only: a
    submission that passes the guard sets it, a settlement clears it, and
    every other event (typing, clearing the chat, a blank submission, the
    dictation toggle, the microphone permission, timers and recogniser
    events) leaves it as it is. *)
Theorem X9_busy_flag_frame :
  forall env emo ev c,
    ChatInterface.isLoading
      (ChatInterface.ui (fst (ChatInterface.dispatch env emo ev c)))
    = Inv.busy_after ev c.
Proof.
  intros env emo ev c.
  destruct ev; cbn [ChatInterface.dispatch fst Inv.busy_after];
    try reflexivity.
  - unfold ChatInterface.sendMessage.
    destruct (Js.truthy_string _); reflexivity.
  - unfold ChatInterface.toggleListening.
    destruct (negb _ || negb _); [reflexivity|].
    destruct (ChatInterface.isListening _); reflexivity.
  - apply fire_isLoading.
  - rewrite onerror_isLoading. reflexivity.
  - unfold ChatInterface.onend.
    destruct (_ && _); reflexivity.
Qed.

(** ** Dictation *)

Section Trim.

Lemma trim_start_trim_end_trim_start (s : string) :
  Js.trim_start (Js.trim_end (Js.trim_start s))
  = Js.trim_end (Js.trim_start s).
Proof.
  induction s as [|c s IH]; [reflexivity|].
  cbn [Js.trim_start].
  destruct (Js.is_white_space c) eqn:Hc; [exact IH|].
  cbn [Js.trim_end].
  destruct (Js.trim_end s); rewrite ?Hc; cbn [Js.trim_start];
    rewrite Hc; reflexivity.
Qed.

Lemma trim_end_idempotent (s : string) :
  Js.trim_end (Js.trim_end s) = Js.trim_end s.
Proof.
  induction s as [|c s IH]; [reflexivity|].
  cbn [Js.trim_end].
  destruct (Js.trim_end s) as [|k ks] eqn:E.
  - destruct (Js.is_white_space c) eqn:Hc; [reflexivity|].
    cbn [Js.trim_end]. rewrite Hc. reflexivity.
  - change (Js.trim_end (String c (String k ks)))
      with (match Js.trim_end (String k ks) with
            | EmptyString =>
                if Js.is_white_space c then EmptyString
                else String c EmptyString
            | kept => String c kept
            end).
    rewrite IH. reflexivity.
Qed.

(** Trimming twice is trimming once. *)
Lemma trim_idempotent (s : string) : Js.trim (Js.trim s) = Js.trim s.
Proof.
  unfold Js.trim.
  rewrite trim_start_trim_end_trim_start. apply trim_end_idempotent.
Qed.

End Trim.

(** X10. Dictating into an empty input and submitting: after a result
    whose trimmed transcript is not empty, the input holds exactly the
    trimmed transcript, and a submission then passes the guard, stores
    one user message with that text and sends it as the last entry of the
    request. *)
Theorem X10_dictated_text_is_submitted_trimmed :
  forall env emo transcript tUser tSystem c,
    ChatInterface.input (ChatInterface.ui c) = "" ->
    Js.trim transcript <> "" ->
    let c1 :=
      fst (ChatInterface.dispatch env emo
             (ChatInterface.RecogResult transcript) c) in
    let sent :=
      ChatInterface.dispatch env emo
        (ChatInterface.Submit tUser tSystem) c1 in
    ChatInterface.input (ChatInterface.ui c1) = Js.trim transcript
    /\ ChatInterface.messages (ChatInterface.ui (fst sent))
       = (ChatInterface.messages (ChatInterface.ui c)
          ++ [ChatInterface.mkMessage ChatInterface.user
                (Js.Str (Js.trim transcript))
                ("user-" ++ Js.show tUser)])%list
    /\ exists r,
        snd sent = [ChatInterface.Fetch r]
        /\ last (ChatInterface.body r) (ChatInterface.system, Js.Undefined)
           = (ChatInterface.user, Js.Str (Js.trim transcript)).
Proof.
  intros env emo transcript tUser tSystem c Hempty Hnonblank c1 sent.
  assert (Hin : ChatInterface.input (ChatInterface.ui c1) = Js.trim transcript).
  { subst c1. cbn [ChatInterface.dispatch fst]. unfold ChatInterface.onresult.
    cbn. rewrite Hempty. reflexivity. }
  assert (Hmsgs : ChatInterface.messages (ChatInterface.ui c1)
                  = ChatInterface.messages (ChatInterface.ui c))
    by reflexivity.
  split; [exact Hin|].
  subst sent. cbn [ChatInterface.dispatch]. unfold ChatInterface.sendMessage.
  rewrite Hin, trim_idempotent.
  apply truthy_string_true in Hnonblank. rewrite Hnonblank. cbn [negb fst snd].
  split.
  - destruct (ChatInterface.isListening (ChatInterface.ui c1)
              && ChatInterface.recognitionRef (ChatInterface.rt c1));
      cbn [ChatInterface.on_ui ChatInterface.ui ChatInterface.messages
           ChatInterface.setMessages ChatInterface.setInput
           ChatInterface.setIsLoading ChatInterface.setIsListening
           ChatInterface.stop ChatInterface.setRecognizer];
      rewrite Hmsgs; reflexivity.
  - eexists. split; [reflexivity|].
    cbn [ChatInterface.body]. rewrite app_assoc. apply last_last.
Qed.

Lemma X10_witness :
  let env := ChatInterface.mkEnv "acct" "key" in
  let c := ChatInterface.mount true in
  let c1 :=
    fst (ChatInterface.dispatch env None
           (ChatInterface.RecogResult " turn it up ") c) in
  ChatInterface.input (ChatInterface.ui c) = ""
  /\ Js.trim " turn it up " <> ""
  /\ ChatInterface.input (ChatInterface.ui c1) = Js.trim " turn it up "
  /\ ChatInterface.messages
       (ChatInterface.ui
          (fst (ChatInterface.dispatch env None
                  (ChatInterface.Submit 1 2) c1)))
     = (ChatInterface.messages (ChatInterface.ui c)
        ++ [ChatInterface.mkMessage ChatInterface.user
              (Js.Str (Js.trim " turn it up ")) ("user-" ++ Js.show 1)])%list.
Proof.
  intros env c c1.
  assert (H1 : ChatInterface.input (ChatInterface.ui c) = "") by reflexivity.
  assert (H2 : Js.trim " turn it up " <> "") by (vm_compute; discriminate).
  pose proof (X10_dictated_text_is_submitted_trimmed env None " turn it up "
                1 2 c H1 H2) as H.
  exact (conj H1 (conj H2 (conj (proj1 H) (proj1 (proj2 H))))).
Defined.

(** X11. Every recogniser error other than [network] switches dictation
    off and arms no timer and calls nothing on the recogniser; the
    reconnecting flag, the input and the transcript stay as they are, and
    the banner changes only for [not-allowed]. *)
Theorem X11_other_errors_force_idle :
  forall env emo error c,
    error <> "network" ->
    let c' :=
      fst (ChatInterface.dispatch env emo (ChatInterface.RecogError error) c) in
    ChatInterface.isListening (ChatInterface.ui c') = false
    /\ ChatInterface.timers (ChatInterface.rt c')
       = ChatInterface.timers (ChatInterface.rt c)
    /\ ChatInterface.recognizerCalls (ChatInterface.rt c')
       = ChatInterface.recognizerCalls (ChatInterface.rt c)
    /\ ChatInterface.networkError (ChatInterface.ui c')
       = ChatInterface.networkError (ChatInterface.ui c)
    /\ ChatInterface.input (ChatInterface.ui c')
       = ChatInterface.input (ChatInterface.ui c)
    /\ ChatInterface.messages (ChatInterface.ui c')
       = ChatInterface.messages (ChatInterface.ui c)
    /\ ChatInterface.permissionError (ChatInterface.ui c')
       = if error =? "not-allowed"
         then Some "Microphone access was denied. Please check your browser permissions."
         else ChatInterface.permissionError (ChatInterface.ui c).
Proof.
  intros env emo error c Hne.
  apply String.eqb_neq in Hne.
  cbn [ChatInterface.dispatch fst]. unfold ChatInterface.onerror.
  rewrite Hne. cbn [negb].
  destruct (error =? "not-allowed"), (error =? "no-speech");
    repeat split; reflexivity.
Qed.

Lemma X11_witness :
  let env := ChatInterface.mkEnv "acct" "key" in
  let c :=
    App.chat
      (App.run env
         [App.Chat ChatInterface.ToggleListening;
          App.Chat ChatInterface.MicGranted;
          App.Chat (ChatInterface.Timeout 1)]
         (App.init true)) in
  "no-speech" <> "network"
  /\ ChatInterface.isListening (ChatInterface.ui c) = true
  /\ ChatInterface.isListening
       (ChatInterface.ui
          (fst (ChatInterface.dispatch env None
                  (ChatInterface.RecogError "no-speech") c))) = false.
Proof.
  intros env c.
  assert (Hne : "no-speech" <> "network") by discriminate.
  exact (conj Hne (conj eq_refl
    (proj1 (X11_other_errors_force_idle env None "no-speech" c Hne)))).
Defined.

(** ** Timers of the dictation controller *)

Section Timers.

Import ChatInterface Inv.

Variable env : ImportMetaEnv.

Ltac rt_simpl :=
  unfold timers_fresh, retry_discipline, stopped, stop, on_ui,
    setRecognizer, setRetryTimeoutRef, clearTimeout, setTimeout in *;
  cbn [rt ui timers nextTimerId retryTimeoutRef recognizerStarted
       recognizerCalls recognitionRef fst snd] in *.

Lemma fresh_setTimeout t d c :
  timers_fresh c -> timers_fresh (snd (setTimeout t d c)).
Proof.
  rt_simpl. intro H. apply Forall_app. split.
  - eapply Forall_impl; [|exact H]. cbn beta. intros; lia.
  - constructor; [cbn; lia|constructor].
Qed.

Lemma Forall_filter {A} (P : A -> Prop) (p : A -> bool) (l : list A) :
  Forall P l -> Forall P (filter p l).
Proof.
  induction 1 as [|x l Hx _ IH]; cbn [filter]; [constructor|].
  destruct (p x); [constructor|]; assumption.
Qed.

Lemma fresh_clearTimeout i c : timers_fresh c -> timers_fresh (clearTimeout i c).
Proof. rt_simpl. apply Forall_filter. Qed.

Lemma fresh_start c : timers_fresh c -> timers_fresh (snd (start c)).
Proof. unfold start. destruct (recognizerStarted (rt c)); rt_simpl; auto. Qed.

Lemma fresh_runTask t c : timers_fresh c -> timers_fresh (runTask t c).
Proof.
  intro H. destruct t as [|il| |il]; cbn [runTask].
  - pose proof (fresh_start c H) as Hs.
    destruct (start c) as [[u|m] c']; exact Hs.
  - destruct il; [|exact H].
    apply fresh_setTimeout. exact H.
  - pose proof (fresh_start c H) as Hs.
    destruct (start c) as [[u|m] c']; exact Hs.
  - destruct il; [apply fresh_start|]; exact H.
Qed.

Lemma fresh_fire i c : timers_fresh c -> timers_fresh (fire i c).
Proof.
  intro H. unfold fire.
  destruct (find _ _); [|exact H].
  apply fresh_runTask, fresh_clearTimeout, H.
Qed.

Lemma fresh_onerror il error c :
  timers_fresh c -> timers_fresh (onerror il error c).
Proof.
  intro H. unfold onerror.
  destruct (error =? "not-allowed"), (error =? "no-speech"),
    (error =? "network"); cbn [negb]; try exact H.
  all: destruct (retryTimeoutRef (rt c)) as [i|] eqn:E;
    cbn [on_ui rt]; rewrite E.
  all: try (apply (fresh_setTimeout (RetryRestart il) 2000
                     (clearTimeout i _)), fresh_clearTimeout, H).
  all: apply (fresh_setTimeout (RetryRestart il) 2000), H.
Qed.

Lemma dispatch_fresh emo ev c :
  timers_fresh c -> timers_fresh (fst (dispatch env emo ev c)).
Proof.
  intro H. destruct ev; cbn [dispatch fst].
  - exact H.
  - unfold sendMessage. destruct (negb _); [exact H|].
    destruct (_ && _); exact H.
  - unfold settle. destruct (afterFetch out tReply); exact H.
  - exact H.
  - unfold toggleListening. destruct (_ || _); [exact H|].
    destruct (isListening _); exact H.
  - apply fresh_setTimeout, H.
  - exact H.
  - apply fresh_fire, H.
  - exact H.
  - apply fresh_onerror, H.
  - unfold onend. destruct (_ && _); [|exact H].
    apply (fresh_setTimeout _ _ (stopped c)), H.
Qed.

Lemma reachable_fresh st :
  App.reachable env st -> timers_fresh (App.chat st).
Proof.
  apply (reachable_chat_preserves env timers_fresh).
  - intro has. constructor.
  - intros emo ev c. apply dispatch_fresh.
Qed.

Lemma find_fresh (i : nat) (l : list Timer) (t : Timer) :
  Forall (fun x => (timerId x < i)%nat) l ->
  timerId t = i ->
  find (fun x => Nat.eqb (timerId x) i) (l ++ [t]) = Some t
  /\ filter (fun x => negb (Nat.eqb (timerId x) i)) (l ++ [t]) = l.
Proof.
  intros H Ht. induction H as [|x l Hx _ [IHf IHr]]; cbn.
  - rewrite Ht, Nat.eqb_refl. split; reflexivity.
  - destruct (Nat.eqb_spec (timerId x) i) as [E|E]; [lia|].
    cbn. rewrite IHr. split; [exact IHf|reflexivity].
Qed.

Lemma plain_not_retry (l : list Timer) :
  Forall plain l -> filter is_retry l = [].
Proof.
  induction 1 as [|t l Ht _ IH]; cbn [filter]; [reflexivity|].
  unfold plain in Ht. unfold is_retry.
  destruct (task t); try contradiction; exact IH.
Qed.

Lemma plain_after_clear c :
  retry_discipline c ->
  Forall plain
    match retryTimeoutRef (rt c) with
    | Some i => filter (fun t => negb (Nat.eqb (timerId t) i)) (timers (rt c))
    | None => timers (rt c)
    end.
Proof.
  unfold retry_discipline. generalize (retryTimeoutRef (rt c)) as ref.
  intros ref H. induction H as [|t l Ht _ IH].
  - destruct ref; constructor.
  - destruct ref as [i|]; cbn [filter].
    + destruct (Nat.eqb_spec (timerId t) i) as [E|E]; cbn [negb]; [exact IH|].
      constructor; [|exact IH].
      unfold plain. destruct (task t); try exact I; try contradiction.
      destruct Ht as (_ & _ & [= Hid]). congruence.
    + constructor; [|exact IH].
      unfold plain. destruct (task t); try exact I; try contradiction.
      destruct Ht as (_ & _ & Hid). discriminate.
Qed.

Lemma filter_length_le {A} (p q : A -> bool) (l : list A) :
  (List.length (filter p (filter q l)) <= List.length (filter p l))%nat.
Proof.
  induction l as [|x l IH]; cbn [filter]; [lia|].
  destruct (q x) eqn:Q, (p x) eqn:P; cbn [filter List.length];
    rewrite ?P; cbn [List.length]; lia.
Qed.

Lemma single_setTimeout t d c :
  plain (mkTimer (nextTimerId (rt c)) d t) ->
  retry_single c -> retry_single (snd (setTimeout t d c)).
Proof.
  unfold retry_single. rt_simpl. intros Ht [H Hn]. split.
  - apply Forall_app. split; [exact H|].
    constructor; [|constructor].
    unfold plain in Ht. cbn [task] in *. destruct t; try exact I; contradiction.
  - rewrite filter_app, length_app.
    unfold plain in Ht. cbn [task] in Ht.
    destruct t; try contradiction; cbn; lia.
Qed.

Lemma single_clearTimeout i c :
  retry_single c -> retry_single (clearTimeout i c).
Proof.
  unfold retry_single. rt_simpl. intros [H Hn]. split.
  - apply Forall_filter, H.
  - pose proof (filter_length_le is_retry
                  (fun t => negb (Nat.eqb (timerId t) i)) (timers (rt c))).
    lia.
Qed.

Lemma single_start c : retry_single c -> retry_single (snd (start c)).
Proof. unfold start. destruct (recognizerStarted (rt c)); auto. Qed.

Lemma single_runTask t c :
  match t with
  | RetryStart => False
  | RetryRestart il => il = false
  | _ => True
  end ->
  retry_single c -> retry_single (runTask t c).
Proof.
  intros Ht H. destruct t as [|il| |il]; cbn [runTask].
  - pose proof (single_start c H) as Hs.
    destruct (start c) as [[u|m] c']; exact Hs.
  - rewrite Ht. exact H.
  - contradiction.
  - destruct il; [apply single_start|]; exact H.
Qed.

Lemma single_fire i c : retry_single c -> retry_single (fire i c).
Proof.
  intro H. unfold fire.
  destruct (find _ _) as [t|] eqn:E; [|exact H].
  apply find_some in E. destruct E as [Hin _].
  apply single_runTask; [|apply single_clearTimeout, H].
  destruct H as [H _]. unfold retry_discipline in H.
  rewrite Forall_forall in H. specialize (H t Hin).
  destruct (task t); try exact I; try contradiction. apply H.
Qed.

Lemma single_onerror error c :
  retry_single c -> retry_single (onerror onerror_isListening error c).
Proof.
  intro H. unfold onerror.
  destruct (error =? "not-allowed"), (error =? "no-speech"),
    (error =? "network"); cbn [negb]; try exact H.
  all: pose proof (plain_after_clear c (proj1 H)) as Hp.
  all: pose proof (plain_not_retry _ Hp) as Hz.
  all: unfold retry_single; destruct (retryTimeoutRef (rt c)) as [i|] eqn:E;
    rt_simpl; rewrite E; cbn [rt timers retryTimeoutRef nextTimerId].
  all: split;
    [apply Forall_app; split;
       [eapply Forall_impl; [|exact Hp]; intros t Ht; unfold plain in Ht;
        destruct (task t); try exact I; contradiction
       |constructor; [cbn; repeat split|constructor]]
    |rewrite filter_app, length_app, Hz; cbn; lia].
Qed.

Lemma dispatch_single emo ev c :
  retry_single c -> retry_single (fst (dispatch env emo ev c)).
Proof.
  intro H. destruct ev; cbn [dispatch fst].
  - exact H.
  - unfold sendMessage. destruct (negb _); [exact H|].
    destruct (_ && _); exact H.
  - unfold settle. destruct (afterFetch out tReply); exact H.
  - exact H.
  - unfold toggleListening. destruct (_ || _); [exact H|].
    destruct (isListening _); exact H.
  - apply single_setTimeout; [exact I|exact H].
  - exact H.
  - apply single_fire, H.
  - exact H.
  - apply single_onerror, H.
  - unfold onend. destruct (_ && _); [|exact H].
    apply (single_setTimeout _ _ (stopped c)); [exact I|exact H].
Qed.

Lemma reachable_single st :
  App.reachable env st -> retry_single (App.chat st).
Proof.
  apply (reachable_chat_preserves env retry_single).
  - intro has. split; [constructor|cbn; lia].
  - intros emo ev c. apply dispatch_single.
Qed.

End Timers.

(** X12. In every reachable state in which dictation is listening and no
    network error is flagged, the [end] event of the recogniser keeps the
    controller listening and arms one timer of 300 ms; when that timer
    fires, [start()] is called once, the recogniser is started again, the
    controller is still listening and the other pending timers are as
    before. *)
Theorem X12_end_while_listening_restarts :
  forall env emo st,
    App.reachable env st ->
    ChatInterface.isListening (ChatInterface.ui (App.chat st)) = true ->
    ChatInterface.networkError (ChatInterface.ui (App.chat st)) = false ->
    let c := App.chat st in
    let next := ChatInterface.nextTimerId (ChatInterface.rt c) in
    let c1 := fst (ChatInterface.dispatch env emo ChatInterface.RecogEnd c) in
    let c2 :=
      fst (ChatInterface.dispatch env emo (ChatInterface.Timeout next) c1) in
    (ChatInterface.isListening (ChatInterface.ui c1) = true
     /\ ChatInterface.timers (ChatInterface.rt c1)
        = (ChatInterface.timers (ChatInterface.rt c)
           ++ [ChatInterface.mkTimer next 300
                 (ChatInterface.EndRestart true)])%list
     /\ ChatInterface.recognizerCalls (ChatInterface.rt c1)
        = ChatInterface.recognizerCalls (ChatInterface.rt c))
    /\ (ChatInterface.recognizerCalls (ChatInterface.rt c2)
        = (ChatInterface.recognizerCalls (ChatInterface.rt c)
           ++ [ChatInterface.Start])%list
        /\ ChatInterface.recognizerStarted (ChatInterface.rt c2) = true
        /\ ChatInterface.isListening (ChatInterface.ui c2) = true
        /\ ChatInterface.timers (ChatInterface.rt c2)
           = ChatInterface.timers (ChatInterface.rt c)).
Proof.
  intros env emo st Hreach Hl Hn c next c1 c2.
  pose proof (reachable_fresh env st Hreach) as Hfresh.
  fold c in Hfresh, Hl, Hn. clearbody c. clear Hreach st.
  destruct c as [[ms inp ld ls sup perr nerr]
                 [ref rref pending nxt started calls]].
  unfold Inv.timers_fresh in Hfresh.
  cbn [ChatInterface.ui ChatInterface.rt ChatInterface.isListening
       ChatInterface.networkError ChatInterface.timers
       ChatInterface.nextTimerId] in *.
  subst ls nerr.
  destruct (find_fresh nxt pending
              (ChatInterface.mkTimer nxt 300 (ChatInterface.EndRestart true))
              Hfresh eq_refl) as [Hfind Hfilter].
  split; [repeat split|].
  subst c2 c1 next.
  cbn [ChatInterface.dispatch fst ChatInterface.onend ChatInterface.stopped
       ChatInterface.setRecognizer ChatInterface.setTimeout
       ChatInterface.ui ChatInterface.rt ChatInterface.isListening
       ChatInterface.networkError ChatInterface.timers
       ChatInterface.nextTimerId ChatInterface.recognizerCalls
       ChatInterface.recognitionRef ChatInterface.retryTimeoutRef
       andb negb snd].
  unfold ChatInterface.fire.
  cbn [ChatInterface.rt ChatInterface.timers]. rewrite Hfind.
  unfold ChatInterface.clearTimeout.
  cbn [ChatInterface.rt ChatInterface.timers ChatInterface.ui
       ChatInterface.task ChatInterface.runTask].
  rewrite Hfilter. repeat split.
Qed.

Lemma X12_witness :
  let env := ChatInterface.mkEnv "acct" "key" in
  let st :=
    App.run env
      [App.Chat ChatInterface.ToggleListening;
       App.Chat ChatInterface.MicGranted;
       App.Chat (ChatInterface.Timeout 1)]
      (App.init true) in
  let c1 :=
    fst (ChatInterface.dispatch env None ChatInterface.RecogEnd
           (App.chat st)) in
  let c2 :=
    fst (ChatInterface.dispatch env None (ChatInterface.Timeout 2) c1) in
  App.reachable env st
  /\ ChatInterface.isListening (ChatInterface.ui (App.chat st)) = true
  /\ ChatInterface.networkError (ChatInterface.ui (App.chat st)) = false
  /\ ChatInterface.recognizerCalls (ChatInterface.rt c2)
     = (ChatInterface.recognizerCalls (ChatInterface.rt (App.chat st))
        ++ [ChatInterface.Start])%list
  /\ ChatInterface.isListening (ChatInterface.ui c2) = true.
Proof.
  intros env st c1 c2.
  assert (Hreach : App.reachable env st)
    by (exists true; eexists; reflexivity).
  pose proof (X12_end_while_listening_restarts env None st Hreach
                eq_refl eq_refl) as H.
  exact (conj Hreach (conj eq_refl (conj eq_refl
    (conj (proj1 (proj2 H)) (proj1 (proj2 (proj2 (proj2 H)))))))).
Defined.

(** X13. In every reachable state the inner restart of the network retry
    is never pending; a pending retry holds [isListening = false], waits
    2000 ms and is the timer [retryTimeoutRef] names; and at most one
    retry is pending, a new network error replacing the previous one. *)
Theorem X13_at_most_one_retry_pending :
  forall env st,
    App.reachable env st ->
    Inv.retry_discipline (App.chat st)
    /\ (List.length
          (filter Inv.is_retry
             (ChatInterface.timers (ChatInterface.rt (App.chat st))))
        <= 1)%nat.
Proof.
  intros env st Hreach. exact (reachable_single env st Hreach).
Qed.

Lemma X13_witness :
  let env := ChatInterface.mkEnv "acct" "key" in
  let st :=
    App.run env
      [App.Chat ChatInterface.ToggleListening;
       App.Chat ChatInterface.MicGranted;
       App.Chat (ChatInterface.Timeout 1);
       App.Chat (ChatInterface.RecogError "network");
       App.Chat (ChatInterface.RecogError "network")]
      (App.init true) in
  App.reachable env st
  /\ List.length
       (filter Inv.is_retry
          (ChatInterface.timers (ChatInterface.rt (App.chat st)))) = 1%nat
  /\ (Inv.retry_discipline (App.chat st)
      /\ (List.length
            (filter Inv.is_retry
               (ChatInterface.timers (ChatInterface.rt (App.chat st))))
          <= 1)%nat).
Proof.
  intros env st.
  assert (Hreach : App.reachable env st)
    by (exists true; eexists; reflexivity).
  exact (conj Hreach (conj eq_refl
    (X13_at_most_one_retry_pending env st Hreach))).
Defined.

(** X14. In every reachable state a timer that fires calls at most
    [start()] on the recogniser, once: no timer ever calls [stop()], the
    [stop()] of the network retry included. *)
Theorem X14_timers_never_stop_the_recogniser :
  forall env emo st i,
    App.reachable env st ->
    let c := App.chat st in
    let c' := fst (ChatInterface.dispatch env emo (ChatInterface.Timeout i) c) in
    ChatInterface.recognizerCalls (ChatInterface.rt c')
    = ChatInterface.recognizerCalls (ChatInterface.rt c)
    \/ ChatInterface.recognizerCalls (ChatInterface.rt c')
       = (ChatInterface.recognizerCalls (ChatInterface.rt c)
          ++ [ChatInterface.Start])%list.
Proof.
  intros env emo st i Hreach c c'.
  pose proof (proj1 (reachable_single env st Hreach)) as Hd.
  fold c in Hd. clearbody c. subst c'.
  cbn [ChatInterface.dispatch fst]. unfold ChatInterface.fire.
  destruct (find _ _) as [t|] eqn:E; [|left; reflexivity].
  apply find_some in E. destruct E as [Hin _].
  unfold Inv.retry_discipline in Hd. rewrite Forall_forall in Hd.
  specialize (Hd t Hin).
  destruct (ChatInterface.task t) as [|il| |il];
    cbn [ChatInterface.runTask].
  - unfold ChatInterface.start.
    destruct (ChatInterface.recognizerStarted _); right; reflexivity.
  - destruct Hd as (-> & _). left. reflexivity.
  - contradiction.
  - destruct il; [|left; reflexivity].
    unfold ChatInterface.start.
    destruct (ChatInterface.recognizerStarted _); right; reflexivity.
Qed.

Lemma X14_witness :
  let env := ChatInterface.mkEnv "acct" "key" in
  let st :=
    App.run env
      [App.Chat ChatInterface.ToggleListening;
       App.Chat ChatInterface.MicGranted;
       App.Chat (ChatInterface.Timeout 1);
       App.Chat (ChatInterface.RecogError "network")]
      (App.init true) in
  let c' :=
    fst (ChatInterface.dispatch env None (ChatInterface.Timeout 2)
           (App.chat st)) in
  App.reachable env st
  /\ (ChatInterface.recognizerCalls (ChatInterface.rt c')
      = ChatInterface.recognizerCalls (ChatInterface.rt (App.chat st))
      \/ ChatInterface.recognizerCalls (ChatInterface.rt c')
         = (ChatInterface.recognizerCalls (ChatInterface.rt (App.chat st))
            ++ [ChatInterface.Start])%list).
Proof.
  intros env st c'.
  assert (Hreach : App.reachable env st)
    by (exists true; eexists; reflexivity).
  exact (conj Hreach
    (X14_timers_never_stop_the_recogniser env None st 2 Hreach)).
Defined.

(** X15. A reply that arrives after the chat was cleared lands in the
    cleared transcript: whatever the outcome of the request, the
    transcript then holds exactly one message, an assistant message with
    no user message before it. *)
Theorem X15_reply_after_clear_stands_alone :
  forall out tReply c,
    exists m,
      ChatInterface.role m = ChatInterface.assistant
      /\ ChatInterface.messages
           (ChatInterface.ui
              (ChatInterface.settle out tReply (ChatInterface.clearChat c)))
         = [m].
Proof.
  intros out tReply c. unfold ChatInterface.settle.
  destruct (ChatInterface.afterFetch out tReply) as [update|e] eqn:E.
  - apply afterFetch_normal in E. destruct E as [v ->].
    eexists. split; [|reflexivity]. reflexivity.
  - eexists. split; [|reflexivity]. reflexivity.
Qed.

(** ** Model loading and the camera list *)

Section Setup.

Import FaceSetup.

Lemma substring_prefix_length (n : nat) (s : string) :
  (String.length (substring 0 n s) <= n)%nat.
Proof.
  revert s. induction n as [|n IH]; intros [|c s]; cbn; try lia.
  specialize (IH s). lia.
Qed.

Lemma append_length (a b : string) :
  String.length (a ++ b) = (String.length a + String.length b)%nat.
Proof. induction a as [|c a IH]; cbn; [reflexivity|]. rewrite IH. reflexivity. Qed.

Lemma loadCameras_cameras devices st :
  cameras (loadCameras (Some devices) st)
  = filter (fun device => kind device =? "videoinput") devices.
Proof.
  unfold loadCameras. cbv zeta. destruct (filter _ devices); reflexivity.
Qed.

End Setup.

(** X16. When the device enumeration succeeds, the camera list holds
    exactly the enumerated devices of kind [videoinput]; when that list is
    not empty the selected camera is the id of its first entry, and
    otherwise the selection is left as it was; the error is not touched.
    When the enumeration rejects, the list and the selection stay as they
    were and the error is set. *)
Theorem X16_camera_list_and_selection :
  forall devices st,
    let st' := FaceSetup.loadCameras (Some devices) st in
    (forall d,
        In d (FaceSetup.cameras st')
        <-> In d devices /\ FaceSetup.kind d = "videoinput")
    /\ FaceSetup.selectedCamera st'
       = match FaceSetup.cameras st' with
         | first :: _ => FaceSetup.deviceId first
         | [] => FaceSetup.selectedCamera st
         end
    /\ FaceSetup.error st' = FaceSetup.error st
    /\ FaceSetup.cameras (FaceSetup.loadCameras None st) = FaceSetup.cameras st
    /\ FaceSetup.selectedCamera (FaceSetup.loadCameras None st)
       = FaceSetup.selectedCamera st
    /\ FaceSetup.error (FaceSetup.loadCameras None st) <> None.
Proof.
  intros devices st st'. subst st'.
  split; [|split; [|split; [|repeat split; cbn; discriminate]]].
  - intro d. rewrite loadCameras_cameras, filter_In, String.eqb_eq.
    reflexivity.
  - unfold FaceSetup.loadCameras. cbv zeta.
    destruct (filter _ devices); reflexivity.
  - unfold FaceSetup.loadCameras. cbv zeta.
    destruct (filter _ devices); reflexivity.
Qed.

(** X17. Starting from the first render, the main view (camera selector
    and video) is shown exactly when the three models loaded and the
    device enumeration succeeded; when a model fails to load, the error
    view with the model message is shown, the loading flag is still set
    and no camera has been listed. *)
Theorem X17_main_view_needs_models_and_devices :
  forall tiny landmark expression enumerated,
    let st :=
      FaceSetup.loadModels tiny landmark expression enumerated
        FaceSetup.init in
    (FaceSetup.render st = FaceSetup.MainView
     <-> tiny && landmark && expression = true
         /\ exists devices, enumerated = Some devices)
    /\ (tiny && landmark && expression = false ->
        FaceSetup.render st
        = FaceSetup.ErrorView
            "Failed to load models. Please check your internet connection and refresh the page."
        /\ FaceSetup.isModelLoading st = true
        /\ FaceSetup.cameras st = []).
Proof.
  intros tiny landmark expression enumerated st. subst st.
  unfold FaceSetup.loadModels.
  destruct (tiny && landmark && expression).
  - split; [|discriminate].
    destruct enumerated as [devices|].
    + split; [intros _; split; [reflexivity|exists devices; reflexivity]|].
      intros _. unfold FaceSetup.render, FaceSetup.loadCameras. cbv zeta.
      destruct (filter _ devices); reflexivity.
    + split; [discriminate|]. intros [_ [devices H]]. discriminate.
  - split; [|intros _; repeat split].
    split; [discriminate|]. intros [H _]. discriminate.
Qed.

Lemma X17_witness :
  let st :=
    FaceSetup.loadModels true false true
      (Some [FaceSetup.mkDevice "videoinput" "cam-1" "Front camera"])
      FaceSetup.init in
  true && false && true = false
  /\ FaceSetup.render st
     = FaceSetup.ErrorView
         "Failed to load models. Please check your internet connection and refresh the page."
  /\ FaceSetup.isModelLoading st = true
  /\ FaceSetup.cameras st = [].
Proof.
  intro st.
  assert (H : true && false && true = false) by reflexivity.
  exact (conj H
    (proj2 (X17_main_view_needs_models_and_devices true false true
              (Some [FaceSetup.mkDevice "videoinput" "cam-1" "Front camera"]))
           H)).
Defined.

(** X18. The text of a camera option is never empty: it is the label of
    the device when there is one, and otherwise "Camera ", the first five
    characters of the device id (all of it when shorter) and "...", at
    most fifteen characters in all. *)
Theorem X18_camera_option_text :
  forall camera,
    FaceSetup.optionText camera <> ""
    /\ (FaceSetup.label camera <> "" ->
        FaceSetup.optionText camera = FaceSetup.label camera)
    /\ (FaceSetup.label camera = "" ->
        FaceSetup.optionText camera
        = "Camera " ++ substring 0 5 (FaceSetup.deviceId camera) ++ "..."
        /\ (String.length (FaceSetup.optionText camera) <= 15)%nat).
Proof.
  intro camera. unfold FaceSetup.optionText.
  destruct (FaceSetup.label camera) as [|ch rest] eqn:El; cbn [Js.truthy_string].
  - split; [discriminate|]. split; [congruence|]. intros _.
    split; [reflexivity|].
    rewrite append_length, append_length.
    pose proof (substring_prefix_length 5 (FaceSetup.deviceId camera)).
    cbn [String.length]. lia.
  - split; [discriminate|]. split; [reflexivity|]. discriminate.
Qed.

Lemma X18_witness :
  let camera := FaceSetup.mkDevice "videoinput" "a1b2c3d4e5f6" "" in
  FaceSetup.label camera = ""
  /\ FaceSetup.optionText camera = "Camera a1b2c..."
  /\ (String.length (FaceSetup.optionText camera) <= 15)%nat.
Proof.
  intro camera.
  assert (H : FaceSetup.label camera = "") by reflexivity.
  exact (conj H
    (proj2 (proj2 (X18_camera_option_text camera)) H)).
Defined.
